(** * Checkpoint-resumable training: epoch bookkeeping of
      [examples/train_symbolic_example.py]

    A shallow embedding of the checkpoint loader
    ([load_checkpoint_for_resumption]), of the resume wrapper
    ([ResumeTrainer]) and of the part of [main] that connects them and
    writes the final checkpoint.

    Python code is written in a state-and-exception monad [prog]: a
    computation takes the current state and gives back either a returned
    value or a raised exception, together with the state it leaves behind.
    State changes made before an exception is raised are kept, as in
    Python. *)

From Stdlib Require Import ZArith Ascii String Floats.PrimFloat.
From stdpp Require Import base option gmap strings list pretty.

Local Open Scope string_scope.
Local Open Scope list_scope.
Local Open Scope Z_scope.
Local Set Warnings "-register-all".

(** ** Python values and exceptions *)

Module Py.

(** Classes of the exceptions that occur.  All of them derive from
    Python's [Exception], which is what [except Exception] catches. *)
Inductive exn_class :=
| RuntimeError | TypeError | ValueError | OverflowError
| KeyError | OSError | UnpicklingError.

Record exn := Exception { exn_type : exn_class; exn_msg : string }.

(** The values found in a checkpoint bundle and in a training result.
    [PyObj] is any other object (a tensor, a numpy scalar, a state dict, a
    configuration, a tokenizer), known by a handle; what [+] and float
    formatting do on such an object is up to its class. *)
Inductive pyval :=
| PyNone
| PyBool (b : bool)
| PyInt (z : Z)
| PyFloat (f : float)
| PyStr (s : string)
| PyDict (items : list (string * pyval))
| PyObj (handle : nat).

(** The result of running a piece of code. *)
Inductive outcome (A : Type) :=
| Returned (a : A)
| Raised (e : exn).
Arguments Returned {A} a.
Arguments Raised {A} e.

Definition is_raised {A} (o : outcome A) : bool :=
  match o with Raised _ => true | Returned _ => false end.

(** An integer converts to a float unless it rounds beyond the largest
    double, which happens from [2^1024 - 2^970] on. *)
Definition int_fits_float (z : Z) : bool :=
  Z.abs z <? 2 ^ 1024 - 2 ^ 970.

(** Truth value of an optional string: [None] and the empty string are
    false. *)
Definition str_truthy (s : option string) : bool :=
  match s with
  | None => false
  | Some s => negb (String.eqb s "")
  end.

Definition ends_with_sep (s : string) : bool :=
  match String.rev s with
  | String c _ => Ascii.eqb c "/"%char
  | EmptyString => false
  end.

Definition starts_with_sep (s : string) : bool :=
  match s with
  | String c _ => Ascii.eqb c "/"%char
  | EmptyString => false
  end.

(** [os.path.join(a, b)] on a POSIX system. *)
Definition os_path_join (a b : string) : string :=
  if starts_with_sep b then b
  else if String.eqb a "" || ends_with_sep a then a +:+ b
  else a +:+ "/" +:+ b.

(** [str(z)] for an integer: its decimal numeral.  The conversion is
    taken to succeed for every integer. *)
Definition str_int (z : Z) : string := pretty z.

End Py.
Export Py.

(** ** The state-and-exception monad *)

Definition prog (St A : Type) : Type := St → outcome A * St.

Section Prog.
Context {St : Type}.

Definition ret {A} (a : A) : prog St A := λ s, (Returned a, s).

Definition bind {A B} (m : prog St A) (k : A → prog St B) : prog St B :=
  λ s, match m s with
       | (Returned a, s') => k a s'
       | (Raised e, s') => (Raised e, s')
       end.

Definition raise {A} (e : exn) : prog St A := λ s, (Raised e, s).

(** [try: body  except Exception as e: handler e]. *)
Definition try_except {A} (body : prog St A) (handler : exn → prog St A)
  : prog St A :=
  λ s, match body s with
       | (Returned a, s') => (Returned a, s')
       | (Raised e, s') => handler e s'
       end.

Definition gets {A} (f : St → A) : prog St A := λ s, (Returned (f s), s).

Definition modify (f : St → St) : prog St unit := λ s, (Returned (), f s).

Definition lift_outcome {A} (o : outcome A) : prog St A := λ s, (o, s).
End Prog.

Declare Scope prog_scope.
Delimit Scope prog_scope with prog.
Notation "x <- m ;; k" := (bind m (λ x, k))
  (at level 100, m at next level, right associativity) : prog_scope.
Notation "m ;; k" := (bind m (λ _, k))
  (at level 100, right associativity) : prog_scope.
Local Open Scope prog_scope.

(** ** The world the script runs in *)

(** What the script needs from the tensor library: a model and an
    optimizer whose state can be read as a state dict and loaded from one,
    and that one epoch of training updates.  Loading may raise (a
    [RuntimeError] on a shape or key mismatch) and may leave the object
    changed even then.  The library also brings the objects that a bundle
    holds besides the built-in values: [object_add_one h] is [obj + 1] and
    [object_format_6f h] is [f"{obj:.6f}"] for the object [obj] with the
    handle [h].  A tensor of one element and a numpy scalar support both
    ([torch.tensor(3) + 1] is [tensor(4)]); a state dict supports
    neither. *)
Class Torch := {
  Model : Type;
  Optimizer : Type;
  model_load_state_dict : Model → pyval → outcome unit * Model;
  optimizer_load_state_dict : Optimizer → pyval → outcome unit * Optimizer;
  model_state_dict : Model → pyval;
  optimizer_state_dict : Optimizer → pyval;
  train_one_epoch : Model → Optimizer → Model * Optimizer;
  object_add_one : nat → outcome pyval;
  object_format_6f : nat → outcome unit
}.

(** [v + 1]: integers (and booleans, which are integers) stay integers,
    floats stay floats, an object does what its class says, anything else
    is a [TypeError]. *)
Definition py_add_one `{Torch} (v : pyval) : outcome pyval :=
  match v with
  | PyInt z => Returned (PyInt (z + 1))
  | PyBool b => Returned (PyInt (Z.b2z b + 1))
  | PyFloat f => Returned (PyFloat (f + 1)%float)
  | PyObj handle => object_add_one handle
  | PyNone | PyStr _ | PyDict _ =>
      Raised (Exception TypeError "unsupported operand type(s) for +")
  end.

(** [f"{v:.6f}"]: numbers are formatted (an integer through its float
    conversion), an object does what its class says, every other value
    raises.  Only success or failure is kept; the text goes to the log,
    kept there in structured form. *)
Definition py_format_6f `{Torch} (v : pyval) : outcome unit :=
  match v with
  | PyFloat _ | PyBool _ => Returned ()
  | PyInt z =>
      if int_fits_float z then Returned ()
      else Raised (Exception OverflowError "int too large to convert to float")
  | PyObj handle => object_format_6f handle
  | PyStr _ => Raised (Exception ValueError "Unknown format code 'f' for object of type 'str'")
  | PyNone | PyDict _ =>
      Raised (Exception TypeError "unsupported format string passed to __format__")
  end.

(** A file that [torch.load] can be asked to read: either it holds a
    bundle (a dictionary), or reading it raises. *)
Inductive file :=
| Bundle (entries : gmap string pyval)
| Unreadable (e : exn).

(** The value of a trainer's [save_checkpoint] attribute: the trainer's own
    method, or the closure that [ResumeTrainer.train] puts in its place.
    The closure carries the [current_epoch] of the wrapper it belongs to
    (an attribute that is assigned once, in [__init__]) and the function it
    replaced. *)
Inductive save_fn :=
| bound_save_checkpoint
| adjusted_save_checkpoint (current_epoch : Z) (original_save_checkpoint : save_fn).

(** What the script needs from the trainers module besides the training
    loop: the effect on the disk of the trainer's own [save_checkpoint]
    method, called with a path, an epoch and keyword arguments. *)
Class Trainers `{Torch} := {
  trainer_save_checkpoint :
    Model → Optimizer → string → option Z → gmap string pyval →
    gmap string file → gmap string file
}.

Inductive level := INFO | WARNING | ERROR.

(** The log messages, with the values their f-strings interpolate.  The
    interpolation itself ([str] of the value) is taken to succeed. *)
Inductive message :=
| MsgResumingFromCheckpoint (checkpoint_path : string)
| MsgModelStateLoaded
| MsgNoModelState
| MsgOptimizerStateLoaded
| MsgNoOptimizerState
| MsgResumingFromEpoch (start_epoch : pyval)
| MsgNoEpochInformation
| MsgCheckpointLoss (loss : pyval)
| MsgErrorLoadingCheckpoint (e : exn)
| MsgStartingFromScratch
| MsgCheckpointNotFound (checkpoint_path : string)
| MsgNoEpochsRemaining (current_epoch : Z)
| MsgStartingTraining (start_epoch : Z)
| MsgTrainingCompleted
| MsgModelSaved (model_path : string).

(** What can be observed of a run, in order: the messages logged, each
    entry into the wrapped trainer's [train] (with the epoch count and the
    checkpoint-saving function the trainer has at that moment), and each
    call of a checkpoint-saving function with its arguments. *)
Inductive event :=
| Logged (l : level) (m : message)
| TrainInvoked (num_epochs : Z) (save_checkpoint : save_fn)
| SaveInvoked (f : save_fn) (path : string) (epoch : option Z)
    (kwargs : gmap string pyval).

Section Script.
Context `{torch : Torch} `{trainers : !Trainers}.

Record world := World {
  disk : gmap string file;
  model : Model;
  optimizer : Optimizer;
  events : list event
}.

Definition emit (ev : event) : prog world unit :=
  modify (λ w, World (disk w) (model w) (optimizer w) (events w ++ [ev])).

Definition logger_info (m : message) : prog world unit := emit (Logged INFO m).
Definition logger_warning (m : message) : prog world unit := emit (Logged WARNING m).
Definition logger_error (m : message) : prog world unit := emit (Logged ERROR m).

(** [os.path.exists(path)]. *)
Definition os_path_exists (path : string) : prog world bool :=
  gets (λ w, bool_decide (is_Some (disk w !! path))).

(** [torch.load(path, map_location=device)].  The device decides where the
    tensors are placed, not what the bundle contains. *)
Definition torch_load (path : string) : prog world (gmap string pyval) :=
  λ w, match disk w !! path with
       | Some (Bundle b) => (Returned b, w)
       | Some (Unreadable e) => (Raised e, w)
       | None => (Raised (Exception OSError "No such file or directory"), w)
       end.

(** [torch.save(obj, path)] for a dictionary [obj]. *)
Definition torch_save (obj : gmap string pyval) (path : string) : prog world unit :=
  modify (λ w, World (<[path := Bundle obj]> (disk w)) (model w) (optimizer w) (events w)).

(** [model.load_state_dict(sd)] and [optimizer.load_state_dict(sd)]. *)
Definition model_load (sd : pyval) : prog world unit :=
  λ w, let '(o, m) := model_load_state_dict (model w) sd in
       (o, World (disk w) m (optimizer w) (events w)).

Definition optimizer_load (sd : pyval) : prog world unit :=
  λ w, let '(o, opt) := optimizer_load_state_dict (optimizer w) sd in
       (o, World (disk w) (model w) opt (events w)).

(** *** The checkpoint loader *)

(** The four steps of the [try] statement of
    [load_checkpoint_for_resumption], on the loaded bundle [checkpoint]. *)

(** "Load model state". *)
Definition restore_model_state (checkpoint : gmap string pyval) : prog world unit :=
  match checkpoint !! "model_state_dict" with
  | Some sd => model_load sd ;; logger_info MsgModelStateLoaded
  | None => logger_warning MsgNoModelState
  end.

(** "Load optimizer state". *)
Definition restore_optimizer_state (checkpoint : gmap string pyval) : prog world unit :=
  match checkpoint !! "optimizer_state_dict" with
  | Some sd => optimizer_load sd ;; logger_info MsgOptimizerStateLoaded
  | None => logger_warning MsgNoOptimizerState
  end.

(** "Get starting epoch"; gives the new value of [start_epoch]. *)
Definition starting_epoch (checkpoint : gmap string pyval) (start_epoch : pyval)
  : prog world pyval :=
  match checkpoint !! "epoch" with
  | Some epoch =>
      start_epoch <- lift_outcome (py_add_one epoch) ;;
      logger_info (MsgResumingFromEpoch start_epoch) ;;
      ret start_epoch
  | None => logger_warning MsgNoEpochInformation ;; ret start_epoch
  end.

(** "Log additional checkpoint info". *)
Definition log_checkpoint_loss (checkpoint : gmap string pyval) : prog world unit :=
  match checkpoint !! "loss" with
  | Some loss =>
      lift_outcome (py_format_6f loss) ;;
      logger_info (MsgCheckpointLoss loss)
  | None => ret ()
  end.

(** The body of the [try] statement; it returns the value [start_epoch]
    has when the body ends. *)
Definition load_checkpoint_body (checkpoint_path : string) (start_epoch : pyval)
  : prog world pyval :=
  checkpoint <- torch_load checkpoint_path ;;
  restore_model_state checkpoint ;;
  restore_optimizer_state checkpoint ;;
  start_epoch <- starting_epoch checkpoint start_epoch ;;
  log_checkpoint_loss checkpoint ;;
  ret start_epoch.

Definition load_checkpoint_for_resumption (checkpoint_path : option string)
  : prog world pyval :=
  let start_epoch := PyInt 0 in
  let path := default "" checkpoint_path in
  found <- (if str_truthy checkpoint_path then os_path_exists path else ret false) ;;
  if found then
    logger_info (MsgResumingFromCheckpoint path) ;;
    try_except
      (load_checkpoint_body path start_epoch)
      (λ e,
        logger_error (MsgErrorLoadingCheckpoint e) ;;
        logger_warning MsgStartingFromScratch ;;
        ret (PyInt 0))
  else
    (if str_truthy checkpoint_path
     then logger_warning (MsgCheckpointNotFound path)
     else ret ()) ;;
    ret start_epoch.

(** *** The wrapped trainer *)

(** What the wrapped trainer's [train] method does, as far as the wrapper
    can tell: it reads its epoch count and its output directory, trains
    for an epoch, calls [self.save_checkpoint(path, epoch, **kwargs)], and
    in the end returns a result or raises.  It does not assign its own
    [num_epochs] or [save_checkpoint]. *)
Inductive train_script :=
| Finish (result : pyval)
| Fail (e : exn)
| TrainEpoch (k : train_script)
| ReadNumEpochs (k : Z → train_script)
| ReadOutputDir (k : option string → train_script)
| CallSaveCheckpoint (path : string) (epoch : option Z)
    (kwargs : gmap string pyval) (k : train_script).

Record trainer := Trainer {
  num_epochs : Z;
  output_dir : option string;
  save_checkpoint : save_fn;
  train_method : train_script
}.

(** [str(x)] for an optional integer, as an f-string interpolates it. *)
Definition str_opt_int (x : option Z) : string :=
  match x with
  | Some z => str_int z
  | None => "None"
  end.

(** Calling a checkpoint-saving function.  [trainer_output_dir] is the
    value [self.trainer.output_dir] has when the call is made.  For the
    closure this is the body of [adjusted_save_checkpoint]. *)
Fixpoint call_save_checkpoint (f : save_fn) (trainer_output_dir : option string)
    (path : string) (epoch : option Z) (kwargs : gmap string pyval)
  : prog world unit :=
  emit (SaveInvoked f path epoch kwargs) ;;
  match f with
  | bound_save_checkpoint =>
      modify (λ w,
        World (trainer_save_checkpoint (model w) (optimizer w) path epoch kwargs (disk w))
              (model w) (optimizer w) (events w))
  | adjusted_save_checkpoint current_epoch original_save_checkpoint =>
      let adjusted_epoch := (λ epoch, epoch + current_epoch) <$> epoch in
      let path :=
        if bool_decide (epoch ≠ None) && str_truthy trainer_output_dir then
          let filename := "checkpoint_epoch_" +:+ str_opt_int adjusted_epoch +:+ ".pt" in
          os_path_join (default "" trainer_output_dir) filename
        else path in
      call_save_checkpoint original_save_checkpoint trainer_output_dir
        path adjusted_epoch kwargs
  end.

Fixpoint run_script (self : trainer) (s : train_script) : prog world pyval :=
  match s with
  | Finish result => ret result
  | Fail e => raise e
  | TrainEpoch k =>
      modify (λ w,
        let '(m, opt) := train_one_epoch (model w) (optimizer w) in
        World (disk w) m opt (events w)) ;;
      run_script self k
  | ReadNumEpochs k => run_script self (k (num_epochs self))
  | ReadOutputDir k => run_script self (k (output_dir self))
  | CallSaveCheckpoint path epoch kwargs k =>
      call_save_checkpoint (save_checkpoint self) (output_dir self) path epoch kwargs ;;
      run_script self k
  end.

(** [trainer.train()], on the trainer object as it is when called. *)
Definition trainer_train (self : trainer) : prog world pyval :=
  emit (TrainInvoked (num_epochs self) (save_checkpoint self)) ;;
  run_script self (train_method self).

(** *** The resume wrapper *)

(** The state [ResumeTrainer.train] works on: the trainer object that
    [self.trainer] refers to, and the world. *)
Definition session : Type := trainer * world.

Definition in_world {A} (m : prog world A) : prog session A :=
  λ s, let '(o, w) := m (snd s) in (o, (fst s, w)).

Definition get_num_epochs : prog session Z := gets (λ s, num_epochs (fst s)).

Definition get_save_checkpoint : prog session save_fn :=
  gets (λ s, save_checkpoint (fst s)).

Definition set_num_epochs (n : Z) : prog session unit :=
  modify (λ s, (Trainer n (output_dir (fst s)) (save_checkpoint (fst s))
                  (train_method (fst s)), snd s)).

Definition set_save_checkpoint (f : save_fn) : prog session unit :=
  modify (λ s, (Trainer (num_epochs (fst s)) (output_dir (fst s)) f
                  (train_method (fst s)), snd s)).

(** [self.trainer.train()]. *)
Definition call_trainer_train : prog session pyval :=
  λ s, in_world (trainer_train (fst s)) s.

Record ResumeTrainer := { current_epoch : Z }.

(** [ResumeTrainer(trainer, start_epoch)]; the trainer object itself is
    the one of the session. *)
Definition ResumeTrainer_init (start_epoch : Z) : ResumeTrainer :=
  {| current_epoch := start_epoch |}.

(** [{'final_loss': 0.0, 'training_time': 0.0}]. *)
Definition no_training_result : pyval :=
  PyDict [("final_loss", PyFloat 0%float); ("training_time", PyFloat 0%float)].

Definition train (self : ResumeTrainer) : prog session pyval :=
  original_num_epochs <- get_num_epochs ;;
  let remaining_epochs := original_num_epochs - current_epoch self in
  if remaining_epochs <=? 0 then
    in_world (logger_warning (MsgNoEpochsRemaining (current_epoch self))) ;;
    ret no_training_result
  else
    set_num_epochs remaining_epochs ;;
    original_save_checkpoint <- get_save_checkpoint ;;
    set_save_checkpoint
      (adjusted_save_checkpoint (current_epoch self) original_save_checkpoint) ;;
    result <- call_trainer_train ;;
    set_num_epochs original_num_epochs ;;
    set_save_checkpoint original_save_checkpoint ;;
    ret result.

(** *** The part of [main] that resumes, trains and saves *)

Record Args := {
  resume_from_checkpoint : option string;
  args_num_epochs : Z;
  args_output_dir : string;
  save_model_filename : string
}.

(** The objects [main] stores in the final bundle without looking into
    them. *)
Record Setup := {
  config : pyval;
  tokenizer : pyval;
  training_args : pyval;
  timestamp : string
}.

(** Modelled from the spec: the trainer factory [get_trainer] of the
    trainers module, as [main] calls it, with
    [num_epochs=config.num_epochs] (which is [args.num_epochs]) and
    [output_dir=args.output_dir].  The trainer it builds has these two
    attributes and its own [save_checkpoint] method; what its [train] does
    is given by [train_body]. *)
Definition get_trainer (train_body : train_script) (args : Args) : trainer :=
  {| num_epochs := args_num_epochs args;
     output_dir := Some (args_output_dir args);
     save_checkpoint := bound_save_checkpoint;
     train_method := train_body |}.

(** The dictionary [save_dict] of [main]. *)
Definition save_dict (args : Args) (setup : Setup) (training_result : pyval)
    (w : world) : gmap string pyval :=
  list_to_map
    [("model_state_dict", model_state_dict (model w));
     ("optimizer_state_dict", optimizer_state_dict (optimizer w));
     ("epoch", PyInt (args_num_epochs args));
     ("config", config setup);
     ("tokenizer", tokenizer setup);
     ("training_args", training_args setup);
     ("timestamp", PyStr (timestamp setup));
     ("training_result", training_result)].

(** [main] from the construction of the [ResumeTrainer] to the saving of
    the final model. *)
Definition main_train_and_save (args : Args) (setup : Setup) (start_epoch : Z)
  : prog session unit :=
  let resume_trainer := ResumeTrainer_init start_epoch in
  in_world (logger_info (MsgStartingTraining start_epoch)) ;;
  training_result <- train resume_trainer ;;
  in_world (logger_info MsgTrainingCompleted) ;;
  let model_path := os_path_join (args_output_dir args) (save_model_filename args) in
  in_world (
    d <- gets (save_dict args setup training_result) ;;
    torch_save d model_path ;;
    logger_info (MsgModelSaved model_path)).

(** [main], from the loading of the checkpoint on.  The epoch counter is
    an integer in all that follows the loader; a run whose loader returns
    a float (a bundle whose epoch entry is a float) is not described, and
    [main] is [None] there. *)
Definition main (train_body : train_script) (args : Args) (setup : Setup)
    (w : world) : option (outcome unit * world) :=
  match load_checkpoint_for_resumption (resume_from_checkpoint args) w with
  | (Returned (PyInt start_epoch), w) =>
      let trainer := get_trainer train_body args in
      let '(o, s) := main_train_and_save args setup start_epoch (trainer, w) in
      Some (o, snd s)
  | (Returned _, _) => None
  | (Raised e, w) => Some (Raised e, w)
  end.

(** *** Notions used to state the properties *)

(** The warning of the [else] branch of the loader: logged only if a path
    was given. *)
Definition not_found_warning (checkpoint_path : option string) : list event :=
  if str_truthy checkpoint_path
  then [Logged WARNING (MsgCheckpointNotFound (default "" checkpoint_path))]
  else [].


(** The body of the [try] statement runs to its end in [w]: besides the
    load of the bundle and of the two states, neither the increment of the
    epoch entry nor the formatting of the loss entry raises. *)
Definition try_body_completes (checkpoint_path : string) (w : world) : Prop :=
  ∃ v w', load_checkpoint_body checkpoint_path (PyInt 0) w = (Returned v, w').

(** None of the four steps raises on the bundle [b]. *)
Definition steps_succeed (b : gmap string pyval) (w : world) : Prop :=
  (∀ sd, b !! "model_state_dict" = Some sd →
         (model_load_state_dict (model w) sd).1 = Returned ()) ∧
  (∀ sd, b !! "optimizer_state_dict" = Some sd →
         (optimizer_load_state_dict (optimizer w) sd).1 = Returned ()) ∧
  (∀ epoch, b !! "epoch" = Some epoch → is_raised (py_add_one epoch) = false) ∧
  (∀ loss, b !! "loss" = Some loss → py_format_6f loss = Returned ()).

(** The load of the bundle, of the model state or of the optimizer state
    raises, for the file [f] in the world [w]. *)
Inductive load_failure (w : world) : file → Prop :=
| bundle_unreadable e : load_failure w (Unreadable e)
| model_state_rejected b sd :
    b !! "model_state_dict" = Some sd →
    is_raised (model_load_state_dict (model w) sd).1 = true →
    load_failure w (Bundle b)
| optimizer_state_rejected b sd :
    b !! "optimizer_state_dict" = Some sd →
    is_raised (optimizer_load_state_dict (optimizer w) sd).1 = true →
    load_failure w (Bundle b).

(** The calls of [self.save_checkpoint] that a script makes, in order, for
    the attribute values it reads from [self]. *)
Fixpoint save_requests (self : trainer) (s : train_script)
  : list (string * option Z * gmap string pyval) :=
  match s with
  | Finish _ | Fail _ => []
  | TrainEpoch k => save_requests self k
  | ReadNumEpochs k => save_requests self (k (num_epochs self))
  | ReadOutputDir k => save_requests self (k (output_dir self))
  | CallSaveCheckpoint path epoch kwargs k =>
      (path, epoch, kwargs) :: save_requests self k
  end.

(** The epoch entry of the bundle filed at [path]. *)
Definition epoch_entry (d : gmap string file) (path : string) : option pyval :=
  match d !! path with
  | Some (Bundle b) => b !! "epoch"
  | _ => None
  end.

(** The trainer object as [ResumeTrainer.train] has patched it when it
    calls the wrapped trainer's [train]. *)
Definition patched_trainer (self : ResumeTrainer) (tr : trainer) : trainer :=
  {| num_epochs := num_epochs tr - current_epoch self;
     output_dir := output_dir tr;
     save_checkpoint :=
       adjusted_save_checkpoint (current_epoch self) (save_checkpoint tr);
     train_method := train_method tr |}.

(** *** A generic trainer *)

(** The result a training run reports. *)
Definition generic_train_result : pyval :=
  PyDict [("final_loss", PyFloat 0.25%float); ("training_time", PyFloat 1%float)].

(** Modelled from the spec: the epoch loop of the generic trainer of the
    trainers module.  It counts its epochs from 0 and, after each epoch,
    saves a checkpoint under the index of the epoch it has just
    completed. *)
Fixpoint epoch_loop (out : option string) (remaining : nat) (epoch : Z)
  : train_script :=
  match remaining with
  | O => Finish generic_train_result
  | S remaining =>
      TrainEpoch
        (CallSaveCheckpoint
           (os_path_join (default "" out)
              ("checkpoint_epoch_" +:+ str_int epoch +:+ ".pt"))
           (Some epoch) ∅
           (epoch_loop out remaining (epoch + 1)))
  end.

(** Modelled from the spec: the [train] method of the generic trainer of
    the trainers module.  It runs the epoch loop for [self.num_epochs]
    epochs, saving into [self.output_dir]. *)
Definition generic_train : train_script :=
  ReadNumEpochs (λ n, ReadOutputDir (λ out, epoch_loop out (Z.to_nat n) 0)).

(** Modelled from the spec: the [save_checkpoint] method of the generic
    trainer of the trainers module.  It files at [path] a bundle with the
    model state, the optimizer state, the epoch it is given and the keyword
    arguments. *)
Definition generic_save_checkpoint (m : Model) (opt : Optimizer) (path : string)
    (epoch : option Z) (kwargs : gmap string pyval) (d : gmap string file)
  : gmap string file :=
  <[path := Bundle (<["model_state_dict" := model_state_dict m]>
                   (<["optimizer_state_dict" := optimizer_state_dict opt]>
                   (<["epoch" := from_option PyInt PyNone epoch]> kwargs)))]> d.

End Script.

(** ** A small instance, for the examples *)

Module Example.

(** A model is the shape of its weights and the number of epochs it has
    been trained for; loading a state dict of another shape raises the
    tensor library's size-mismatch error.  The objects of this instance
    are no numbers. *)
Definition toy_model : Type := Z * Z.

Definition toy_model_state_dict (m : toy_model) : pyval :=
  PyDict [("shape", PyInt m.1); ("epochs", PyInt m.2)].

Definition toy_model_load (m : toy_model) (sd : pyval) : outcome unit * toy_model :=
  match sd with
  | PyDict [(_, PyInt shape); (_, PyInt epochs)] =>
      if shape =? m.1 then (Returned (), (shape, epochs))
      else (Raised (Exception RuntimeError "size mismatch for weight"), m)
  | _ => (Raised (Exception TypeError "expected state_dict to be dict-like"), m)
  end.

(** An optimizer is the number of epochs of steps it has taken. *)
Definition toy_optimizer_load (opt : Z) (sd : pyval) : outcome unit * Z :=
  match sd with
  | PyInt n => (Returned (), n)
  | _ => (Raised (Exception ValueError "loaded state dict has a different format"), opt)
  end.

#[export] Instance toy_torch : Torch := {|
  Model := toy_model;
  Optimizer := Z;
  model_load_state_dict := toy_model_load;
  optimizer_load_state_dict := toy_optimizer_load;
  model_state_dict := toy_model_state_dict;
  optimizer_state_dict := PyInt;
  train_one_epoch := λ m opt, ((m.1, m.2 + 1), opt + 1);
  object_add_one := λ _,
    Raised (Exception TypeError "unsupported operand type(s) for +");
  object_format_6f := λ _,
    Raised (Exception TypeError "unsupported format string passed to __format__")
|}.

#[export] Instance toy_trainers : Trainers := {|
  trainer_save_checkpoint := generic_save_checkpoint
|}.

(** A fresh model of shape 4 and a fresh optimizer, on a disk [d]. *)
Definition fresh_world (d : gmap string file) : world :=
  {| disk := d; model := (4, 0); optimizer := 0; events := [] |}.

(** Bundles as the generic trainer saves them after its epoch [epoch], for
    a model of the given shape. *)
Definition saved_bundle (shape epoch : Z) : gmap string pyval :=
  list_to_map
    [("model_state_dict", toy_model_state_dict (shape, epoch + 1));
     ("optimizer_state_dict", PyInt (epoch + 1));
     ("epoch", PyInt epoch)].

(** A bundle that has lost its epoch entry. *)
Definition bundle_without_epoch : gmap string pyval :=
  list_to_map
    [("model_state_dict", toy_model_state_dict (4, 3));
     ("optimizer_state_dict", PyInt 3)].

Definition setup : Setup :=
  {| config := PyObj 1; tokenizer := PyObj 2; training_args := PyObj 3;
     timestamp := "20240101_000000" |}.

(** [--num_epochs n --output_dir out], and [--resume_from_checkpoint] if
    [resume] is given. *)
Definition args (resume : option string) (n : Z) : Args :=
  {| resume_from_checkpoint := resume;
     args_num_epochs := n;
     args_output_dir := "out";
     save_model_filename := "symbolic_model.pt" |}.

(** The wrapped trainer of the example of the specification: 5 epochs in
    all, of which the wrapper is told 3 are done. *)
Definition trainer5 : trainer := get_trainer generic_train (args None 5).

(** A trainer whose run raises after its first epoch. *)
Definition failing_trainer : trainer :=
  get_trainer
    (TrainEpoch (Fail (Exception RuntimeError "CUDA out of memory")))
    (args None 5).


Definition mismatched_disk : gmap string file :=
  {[ "out/checkpoint_epoch_3.pt" := Bundle (saved_bundle 8 3) ]}.

Definition corrupt_disk : gmap string file :=
  {[ "out/checkpoint_epoch_3.pt" :=
       Unreadable (Exception UnpicklingError "invalid load key") ]}.

Definition epochless_disk : gmap string file :=
  {[ "out/checkpoint_epoch_3.pt" := Bundle bundle_without_epoch ]}.

Definition size_mismatch : exn :=
  Exception RuntimeError "size mismatch for weight".

(** The disk and the world a run of [main] leaves behind. *)
Definition disk_after (run : option (outcome unit * world)) : gmap string file :=
  from_option (λ r, disk r.2) ∅ run.

Definition world_after (run : option (outcome unit * world)) : option world :=
  snd <$> run.

(** A first run of two epochs from scratch, and a later run, in a new
    process on the same disk, that asks for three epochs in all and
    resumes from [checkpoint]. *)
Definition first_run : option (outcome unit * world) :=
  main generic_train (args None 2) setup (fresh_world ∅).

Definition resumed_run (checkpoint : string) : option (outcome unit * world) :=
  main generic_train (args (Some checkpoint) 3) setup
    (fresh_world (disk_after first_run)).

End Example.

(** ** Text: lower case and substring search *)

Module PyText.

(** [c.lower()] for a character below U+0100: the capital letters are A to
    Z and U+00C0 to U+00DE without the multiplication sign U+00D7, and each
    has its small letter 32 places on. *)
Definition lower_char (c : ascii) : ascii :=
  let n := N_of_ascii c in
  if ((65 <=? n) && (n <=? 90) ||
      (192 <=? n) && (n <=? 222) && negb (n =? 215))%N
  then ascii_of_N (n + 32)
  else c.

(** [s.lower()], for a string of characters below U+0100. *)
Fixpoint py_lower (s : string) : string :=
  match s with
  | EmptyString => EmptyString
  | String c s => String (lower_char c) (py_lower s)
  end.

(** [needle in hay]: [needle] occurs in [hay] as a substring. *)
Fixpoint contains (needle hay : string) : bool :=
  String.prefix needle hay ||
  match hay with
  | EmptyString => false
  | String _ hay => contains needle hay
  end.

(** [any(word in text for word in words)]. *)
Definition any_in (words : list string) (text : string) : bool :=
  existsb (λ word, contains word text) words.

End PyText.
Export PyText.

(** ** The consistency heuristic *)

Definition analyze_symbolic_consistency (prompt generated_text : string)
  : option string :=
  let prompt_lower := py_lower prompt in
  let generated_lower := py_lower generated_text in
  if contains "if" prompt_lower && contains "then" prompt_lower &&
     any_in ["then"; "therefore"; "so"] generated_lower
  then Some "Logical structure maintained"
  else if any_in ["a b c"; "1 2 3"; "monday tuesday"] prompt_lower
  then Some "Sequence pattern detected"
  else if any_in ["equals"; "+"; "-"; "plus"; "minus"] prompt_lower &&
          any_in ["="; "equals"; "is"] generated_lower
  then Some "Mathematical reasoning maintained"
  else None.

(** The prompts of [test_symbolic_interpretability]. *)
Definition test_prompts : list string :=
  ["Max went to";
   "The key opens the door. Sarah has the key. Sarah can";
   "Rain makes things wet. It is raining. The ground is"].


(** ** The configuration *)

(** The command-line arguments [create_symbolic_config] reads.  The
    arguments without a default ([default=None]) are optional; [--bias] is
    a flag and so is never [None]. *)
Record ConfigArgs := {
  arg_preset : string;
  arg_use_reconstruction : bool;
  arg_use_standard_norm : bool;
  arg_block_size : option Z;
  arg_max_position_embeddings : option Z;
  arg_n_layer : option Z;
  arg_n_head : option Z;
  arg_n_embd : option Z;
  arg_dropout : option float;
  arg_bias : bool;
  arg_batch_size : option Z;
  arg_learning_rate : option float;
  arg_use_symbolic_ffn : bool;
  arg_use_vocab_refinement : bool;
  arg_use_v : bool;
  arg_use_proj : bool;
  arg_num_epochs : Z;
  arg_weight_decay : float;
  arg_generation_max_len : Z;
  arg_temperature : float;
  arg_top_k : Z;
  arg_reconstruction_loss_weight : float
}.

(** [obj.name = v] on an object given by its attributes. *)
Definition setattr (name : string) (v : pyval) (obj : gmap string pyval)
  : gmap string pyval :=
  <[name := v]> obj.

(** [if v is not None: obj.name = v]. *)
Definition setattr_if_given {A} (name : string) (to_py : A → pyval) (v : option A)
    (obj : gmap string pyval) : gmap string pyval :=
  match v with
  | Some x => setattr name (to_py x) obj
  | None => obj
  end.

(** The assignments of [create_symbolic_config], in the order of the
    source, on the preset configuration [config]. *)
Definition symbolic_overrides (args : ConfigArgs) (config : gmap string pyval)
  : gmap string pyval :=
  let config := setattr "model_type" (PyStr "Symbolic") config in
  let config := setattr "transformer_block_type" (PyStr "Symbolic") config in
  let config :=
    if arg_use_reconstruction args
    then setattr "model_type" (PyStr "SymbolicReconstruct") config
    else if arg_use_standard_norm args
    then setattr "model_type" (PyStr "SymbolicStandardNorm") config
    else setattr "model_type" (PyStr "Symbolic") config in
  let config := setattr_if_given "block_size" PyInt (arg_block_size args) config in
  let config := setattr_if_given "max_position_embeddings" PyInt
                  (arg_max_position_embeddings args) config in
  let config := setattr_if_given "n_layer" PyInt (arg_n_layer args) config in
  let config := setattr_if_given "n_head" PyInt (arg_n_head args) config in
  let config := setattr_if_given "n_embd" PyInt (arg_n_embd args) config in
  let config := setattr_if_given "dropout" PyFloat (arg_dropout args) config in
  let config := setattr_if_given "bias" PyBool (Some (arg_bias args)) config in
  let config := setattr_if_given "batch_size" PyInt (arg_batch_size args) config in
  let config := setattr_if_given "learning_rate" PyFloat
                  (arg_learning_rate args) config in
  let config := setattr "use_symbolic_ffn" (PyBool (arg_use_symbolic_ffn args)) config in
  let config := setattr "use_vocab_refinement"
                  (PyBool (arg_use_vocab_refinement args)) config in
  let config := setattr "use_v" (PyBool (arg_use_v args)) config in
  let config := setattr "use_proj" (PyBool (arg_use_proj args)) config in
  let config := setattr "num_epochs" (PyInt (arg_num_epochs args)) config in
  let config := setattr "weight_decay" (PyFloat (arg_weight_decay args)) config in
  let config := setattr "generation_max_len"
                  (PyInt (arg_generation_max_len args)) config in
  let config := setattr "temperature" (PyFloat (arg_temperature args)) config in
  let config := setattr "top_k" (PyInt (arg_top_k args)) config in
  if arg_use_reconstruction args
  then setattr "reconstruction_loss_weight"
         (PyFloat (arg_reconstruction_loss_weight args)) config
  else config.

Section Config.
(** The two operations of the config module that the function calls: the
    preset table, and the validation [__post_init__], which may raise and
    may set derived attributes. *)
Context (get_preset_config : string → gmap string pyval).
Context (post_init : gmap string pyval → outcome (gmap string pyval)).

Definition create_symbolic_config (args : ConfigArgs) : outcome (gmap string pyval) :=
  let config := get_preset_config (arg_preset args) in
  post_init (symbolic_overrides args config).

End Config.

(** The attributes that [create_symbolic_config] assigns for the given
    arguments. *)
Definition assigned_attributes (args : ConfigArgs) : list string :=
  ["model_type"; "transformer_block_type"] ++
  (if arg_block_size args is Some _ then ["block_size"] else []) ++
  (if arg_max_position_embeddings args is Some _ then ["max_position_embeddings"] else []) ++
  (if arg_n_layer args is Some _ then ["n_layer"] else []) ++
  (if arg_n_head args is Some _ then ["n_head"] else []) ++
  (if arg_n_embd args is Some _ then ["n_embd"] else []) ++
  (if arg_dropout args is Some _ then ["dropout"] else []) ++
  ["bias"] ++
  (if arg_batch_size args is Some _ then ["batch_size"] else []) ++
  (if arg_learning_rate args is Some _ then ["learning_rate"] else []) ++
  ["use_symbolic_ffn"; "use_vocab_refinement"; "use_v"; "use_proj";
   "num_epochs"; "weight_decay"; "generation_max_len"; "temperature"; "top_k"] ++
  (if arg_use_reconstruction args then ["reconstruction_loss_weight"] else []).

(** The three variants of the model, as [main] names them in
    [get_model(...)] and in its messages. *)
Inductive variant := Reconstruction | StandardNorm | ChannelWise.

Definition variant_model_type (v : variant) : string :=
  match v with
  | Reconstruction => "SymbolicReconstruct"
  | StandardNorm => "SymbolicStandardNorm"
  | ChannelWise => "Symbolic"
  end.

(** The variant [main] builds first and announces with "Using Symbolic
    Transformer WITH ...". *)
Definition announced_variant (args : ConfigArgs) : variant :=
  if arg_use_reconstruction args then Reconstruction
  else if arg_use_standard_norm args then StandardNorm
  else ChannelWise.

(** The variant [main] names in "Symbolic Transformer (...) initialized
    with ... parameters", after it has built the model again from
    [config.model_type]. *)
Definition initialized_variant (args : ConfigArgs) : variant :=
  if arg_use_standard_norm args then StandardNorm
  else if arg_use_reconstruction args then Reconstruction
  else ChannelWise.

(** ** The gradient-accumulation summary of [main] *)

(** What the summary prints: its lines, or the [ZeroDivisionError] of
    [effective_batch_size // mini_batch_size]. *)
Inductive summary :=
| Lines (lines : list string)
| ZeroDivisionError.

(** [max(1, args.effective_batch_size // mini_batch_size)]. *)
Definition accumulation_steps_for (effective_batch_size mini_batch_size : Z) : Z :=
  Z.max 1 (effective_batch_size `div` mini_batch_size).

(** Truth value of an optional integer: [None] and 0 are false. *)
Definition int_truthy (x : option Z) : bool :=
  match x with
  | Some z => negb (z =? 0)
  | None => false
  end.

(** The lines [main] prints about the batch size, for
    [mini_batch_size = config.batch_size] and the two arguments
    [--effective_batch_size] and [--gradient_accumulation_steps]. *)
Definition gradient_accumulation_summary (mini_batch_size : Z)
    (effective_batch_size : option Z) (gradient_accumulation_steps : Z) : summary :=
  if int_truthy effective_batch_size then
    let requested := default 0 effective_batch_size in
    if mini_batch_size =? 0 then ZeroDivisionError
    else
      let accumulation_steps := accumulation_steps_for requested mini_batch_size in
      let effective_batch := accumulation_steps * mini_batch_size in
      Lines (["Mini-batch size:           " +:+ str_int mini_batch_size;
              "Gradient accumulation:     " +:+ str_int accumulation_steps
                +:+ " steps";
              "Effective batch size:      " +:+ str_int effective_batch] ++
             if bool_decide (effective_batch ≠ requested)
             then ["  (Adjusted from requested " +:+ str_int requested +:+ ")"]
             else [])
  else if 1 <? gradient_accumulation_steps then
    let effective_batch := gradient_accumulation_steps * mini_batch_size in
    Lines ["Mini-batch size:           " +:+ str_int mini_batch_size;
           "Gradient accumulation:     " +:+ str_int gradient_accumulation_steps
             +:+ " steps";
           "Effective batch size:      " +:+ str_int effective_batch]
  else
    Lines ["Batch size:                " +:+ str_int mini_batch_size
             +:+ " (no accumulation)"].

(** ** The text column of the dataset *)

(** How the search for the text column ends: with a column, or with
    [sys.exit(1)] after the error message. *)
Inductive column_choice :=
| Column (name : string)
| Exit (code : Z).

(** The choice of [main] among [temp_dataset.column_names], where
    [dtype col] is [temp_dataset.features[col].dtype]. *)
Definition choose_text_column (column_names : list string) (dtype : string → string)
  : column_choice :=
  if bool_decide ("text" ∈ column_names) then Column "text"
  else if bool_decide ("story" ∈ column_names) then Column "story"
  else
    let text_field :=
      List.find (λ col, String.eqb (dtype col) "string") column_names in
    if str_truthy text_field then Column (default "" text_field)
    else Exit 1.

(** ** The tee *)

(** A [TeeOutput] and the console it writes to: the text the console has
    received, the text of the file, and whether the file is closed. *)
Record tee := Tee {
  console : string;
  file_text : string;
  file_closed : bool
}.

Definition closed_file_error : exn :=
  Exception ValueError "I/O operation on closed file.".

(** [self.file.write(message)] and [self.file.flush()]. *)
Definition file_write (message : string) : prog tee unit :=
  λ t, if file_closed t then (Raised closed_file_error, t)
       else (Returned (), Tee (console t) (file_text t +:+ message) false).

Definition file_flush : prog tee unit :=
  λ t, if file_closed t then (Raised closed_file_error, t) else (Returned (), t).

(** [self.stdout.write(message)]. *)
Definition stdout_write (message : string) : prog tee unit :=
  modify (λ t, Tee (console t +:+ message) (file_text t) (file_closed t)).

(** [TeeOutput(file_path)], with the default mode ['w']: the file starts
    empty. *)
Definition TeeOutput_init (console_so_far : string) : tee :=
  Tee console_so_far "" false.

Definition TeeOutput_write (message : string) : prog tee unit :=
  stdout_write message ;;
  file_write message ;;
  file_flush.

Definition TeeOutput_flush : prog tee unit :=
  file_flush.

(** [close]: an open file object is true, and closing a closed file does
    nothing. *)
Definition TeeOutput_close : prog tee unit :=
  modify (λ t, Tee (console t) (file_text t) true).

(** [write] for each message in turn. *)
Fixpoint write_all (messages : list string) : prog tee unit :=
  match messages with
  | [] => ret ()
  | message :: messages => TeeOutput_write message ;; write_all messages
  end.

(** The concatenation of a list of strings. *)
Definition concat_text (messages : list string) : string :=
  foldr String.append "" messages.

(** ** The interpretability test *)

Module Transcript.

(** The line feed and the double quote. *)
Definition nl : string := String "010"%char EmptyString.
Definition dquote : string := String "034"%char EmptyString.

(** [s * n]. *)
Fixpoint repeat_text (s : string) (n : nat) : string :=
  match n with
  | O => EmptyString
  | S n => s +:+ repeat_text s n
  end.

(** [c.isspace()] for a character below U+0100. *)
Definition is_space_char (c : ascii) : bool :=
  let n := N_of_ascii c in
  ((9 <=? n) && (n <=? 13) || (28 <=? n) && (n <=? 32) ||
   (n =? 133) || (n =? 160))%N.

Fixpoint lstrip (s : string) : string :=
  match s with
  | EmptyString => EmptyString
  | String c s' => if is_space_char c then lstrip s' else s
  end.

(** [s.strip()]. *)
Definition py_strip (s : string) : string :=
  String.rev (lstrip (String.rev (lstrip s))).

(** [os.path.join(a, b, c)]. *)
Definition os_path_join3 (a b c : string) : string :=
  os_path_join (os_path_join a b) c.

End Transcript.
Export Transcript.

(** What the test needs from the tokenizer and the model:
    [tokenizer_encode] is
    [tokenizer.encode(prompt, add_special_tokens=True)], [model_generate i ids n]
    is the first row of [model.generate(input_ids, max_new_tokens=n,
    temperature=0.3, top_k=20)] for the prompt number [i] (the sampling
    may give another text at each call), and [tokenizer_decode] is
    [tokenizer.decode(tokens, skip_special_tokens=True)].  Each of them
    may raise; [model.eval()], [torch.tensor] and [torch.no_grad()] are
    taken to succeed. *)
Class Generation := {
  tokenizer_encode : string → outcome (list Z);
  model_generate : nat → list Z → Z → outcome (list Z);
  tokenizer_decode : list Z → outcome string
}.

(** What the test leaves behind: the arguments of its [print] calls, the
    strings written to the transcript file, and whether that file is
    open. *)
Record test_log := TestLog {
  printed : list string;
  written : list string;
  transcript_open : bool
}.

Section InterpretabilityTest.
Context `{generation : Generation}.

Definition print (text : string) : prog test_log unit :=
  modify (λ l, TestLog (printed l ++ [text]) (written l) (transcript_open l)).

Definition interp_file_write (text : string) : prog test_log unit :=
  modify (λ l, TestLog (printed l) (written l ++ [text]) (transcript_open l)).

(** [with open(interp_log_path, 'w', ...) as interp_file: body]: the file
    is closed when the body ends, also when it raises. *)
Definition with_interp_file (body : prog test_log unit) : prog test_log unit :=
  λ l, let '(o, l') := body (TestLog (printed l) [] true) in
       (o, TestLog (printed l') (written l') false).

Fixpoint for_each {A} (items : list A) (body : A → prog test_log unit)
  : prog test_log unit :=
  match items with
  | [] => ret ()
  | item :: items => body item ;; for_each items body
  end.

(** The body of the [try] statement, for one generation length. *)
Definition generation_attempt (i : nat) (prompt : string) (input_ids : list Z)
    (gen_len : Z) : prog test_log unit :=
  let prompt_length := length input_ids in
  generated <- lift_outcome (model_generate i input_ids gen_len) ;;
  full_text <- lift_outcome (tokenizer_decode generated) ;;
  generated_part <- lift_outcome (tokenizer_decode (drop prompt_length generated)) ;;
  let result := "Full: " +:+ dquote +:+ full_text +:+ dquote +:+ nl +:+
                "Generated: " +:+ dquote +:+ generated_part +:+ dquote +:+ nl in
  print (py_strip result) ;;
  interp_file_write result ;;
  let consistency_note := analyze_symbolic_consistency prompt generated_part in
  if str_truthy consistency_note then
    print ("Symbolic analysis: " +:+ default "" consistency_note) ;;
    interp_file_write ("Symbolic analysis: " +:+ default "" consistency_note +:+ nl)
  else ret ().

(** One turn of the loop over the generation lengths. *)
Definition test_length (i : nat) (prompt : string) (input_ids : list Z)
    (gen_len : Z) : prog test_log unit :=
  let gen_info := nl +:+ "Generating " +:+ str_int gen_len +:+ " tokens:" +:+ nl in
  print (py_strip gen_info) ;;
  interp_file_write gen_info ;;
  try_except
    (generation_attempt i prompt input_ids gen_len)
    (λ e,
      let error_msg := "Error during generation: " +:+ exn_msg e +:+ nl in
      print (py_strip error_msg) ;;
      interp_file_write error_msg).

(** One turn of the loop over the prompts. *)
Definition test_prompt (item : nat * string) : prog test_log unit :=
  let '(i, prompt) := item in
  let test_result :=
    nl +:+ "--- Symbolic Test " +:+ str_int (Z.of_nat i + 1) +:+ " ---" +:+ nl +:+
    "Prompt: " +:+ dquote +:+ prompt +:+ dquote +:+ nl in
  print (py_strip test_result) ;;
  interp_file_write test_result ;;
  input_ids <- lift_outcome (tokenizer_encode prompt) ;;
  let prompt_length := Z.of_nat (length input_ids) in
  let length_info := "Prompt tokens: " +:+ str_int prompt_length +:+ nl in
  print (py_strip length_info) ;;
  interp_file_write length_info ;;
  for_each [5; 10; 20] (test_length i prompt input_ids) ;;
  interp_file_write (nl +:+ repeat_text "-" 80 +:+ nl).

(** [enumerate(items)]. *)
Definition enumerate {A} (items : list A) : list (nat * A) :=
  imap (λ i item, (i, item)) items.

Definition test_symbolic_interpretability (vocab_size : Z) (output_dir timestamp : string)
  : prog test_log unit :=
  print (nl +:+ repeat_text "=" 60) ;;
  print "TESTING SYMBOLIC INTERPRETABILITY" ;;
  print (repeat_text "=" 60) ;;
  let interp_log_path :=
    os_path_join3 output_dir "logs"
      ("symbolic_interpretability_" +:+ timestamp +:+ ".log") in
  with_interp_file (
    interp_file_write ("Symbolic Interpretability Test Results" +:+ nl) ;;
    interp_file_write ("Timestamp: " +:+ timestamp +:+ nl) ;;
    interp_file_write ("Model: Symbolic Transformer" +:+ nl) ;;
    interp_file_write ("Vocab size: " +:+ str_int vocab_size +:+ nl) ;;
    interp_file_write
      ("All internal representations constrained to vocabulary manifold" +:+ nl) ;;
    interp_file_write (repeat_text "=" 80 +:+ nl +:+ nl) ;;
    for_each (enumerate test_prompts) test_prompt) ;;
  print ("Symbolic interpretability test results saved to: " +:+ interp_log_path).

End InterpretabilityTest.

(** A tokenizer and a model for the examples: a token per character, a
    model that appends [n] copies of the token 33, and a decoder that gives
    a text of as many letters as there are tokens. *)
Definition toy_generation : Generation := {|
  tokenizer_encode := λ prompt, Returned (replicate (String.length prompt) 7);
  model_generate := λ _ ids n, Returned (ids ++ replicate (Z.to_nat n) 33);
  tokenizer_decode := λ tokens, Returned (repeat_text "x" (length tokens))
|}.

(** A tokenizer that knows no prompt. *)
Definition failing_tokenizer : Generation := {|
  tokenizer_encode := λ _, Raised (Exception KeyError "unknown token");
  model_generate := λ _ ids n, Returned ids;
  tokenizer_decode := λ _, Returned ""
|}.

(** A model whose generation always fails. *)
Definition failing_model : Generation := {|
  tokenizer_encode := λ prompt, Returned [1; 2; 3];
  model_generate := λ _ _ _, Raised (Exception RuntimeError "CUDA error");
  tokenizer_decode := λ _, Returned ""
|}.

Definition empty_log : test_log := TestLog [] [] false.


(** [text], the argument of a call of [interp_file.write], is not the
    analysis note: it does not start with "Symbolic analysis: ".  (A text
    written by another call may still hold these words further on, after a
    line feed of the decoded text.) *)
Definition not_analysis_note (text : string) : Prop :=
  String.prefix "Symbolic analysis: " text = false.

(** Steps none of whose calls of [interp_file.write] writes the analysis
    note. *)
Definition writes_no_analysis_note {A} (m : prog test_log A) : Prop :=
  ∀ l, Forall not_analysis_note (written l) →
       Forall not_analysis_note (written (m l).2).

(** ** What a step leaves in place *)

Section Frame.
Context `{torch : Torch}.

(** The world [w'] has the disk of [w], and the events of [w] followed by
    further ones. *)
Definition extends (w w' : world) : Prop :=
  disk w' = disk w ∧ ∃ l, events w' = events w ++ l.

End Frame.

(** ** Further instances, for the examples *)

Module Cases.
Import Example.


Definition bad_optimizer_disk : gmap string file :=
  {[ "out/checkpoint_epoch_3.pt" :=
       Bundle (<["optimizer_state_dict" := PyStr "corrupt"]> (saved_bundle 4 3)) ]}.

(** An instance whose objects are tensors of one integer, known by that
    integer: they can be incremented and formatted. *)
Definition tensor_torch : Torch := {|
  Model := toy_model;
  Optimizer := Z;
  model_load_state_dict := toy_model_load;
  optimizer_load_state_dict := toy_optimizer_load;
  model_state_dict := toy_model_state_dict;
  optimizer_state_dict := PyInt;
  train_one_epoch := λ m opt, ((m.1, m.2 + 1), opt + 1);
  object_add_one := λ handle, Returned (PyObj (S handle));
  object_format_6f := λ _, Returned ()
|}.

(** The good checkpoint with the tensors [tensor(3)] and [tensor(0)] as
    its epoch and its loss. *)
Definition tensor_epoch_disk : gmap string file :=
  {[ "out/checkpoint_epoch_3.pt" :=
       Bundle (<["epoch" := PyObj 3]> (<["loss" := PyObj 0]> (saved_bundle 4 3))) ]}.

(** A trainer without an output directory that saves its best model,
    with no epoch, and returns. *)
Definition best_model_trainer : trainer :=
  {| num_epochs := 5;
     output_dir := None;
     save_checkpoint := bound_save_checkpoint;
     train_method :=
       TrainEpoch (CallSaveCheckpoint "best_model.pt" None ∅
                     (Finish generic_train_result)) |}.

(** [--preset small --n_layer 2 --bias --num_epochs 3 --weight_decay 0.25],
    the other arguments at their defaults. *)
Definition small_args : ConfigArgs :=
  {| arg_preset := "small";
     arg_use_reconstruction := false;
     arg_use_standard_norm := false;
     arg_block_size := None;
     arg_max_position_embeddings := None;
     arg_n_layer := Some 2;
     arg_n_head := None;
     arg_n_embd := None;
     arg_dropout := None;
     arg_bias := true;
     arg_batch_size := None;
     arg_learning_rate := None;
     arg_use_symbolic_ffn := true;
     arg_use_vocab_refinement := false;
     arg_use_v := false;
     arg_use_proj := false;
     arg_num_epochs := 3;
     arg_weight_decay := 0.25%float;
     arg_generation_max_len := 30;
     arg_temperature := 0.5%float;
     arg_top_k := 20;
     arg_reconstruction_loss_weight := 1%float |}.

(** A preset configuration. *)
Definition small_preset : gmap string pyval :=
  list_to_map [("vocab_size", PyInt 50257); ("n_layer", PyInt 6);
               ("bias", PyBool false)].

(** A dataset whose text is in its column [story], and one with numbers
    only. *)
Definition story_columns : list string := ["id"; "story"].
Definition number_columns : list string := ["id"; "label"].
Definition all_strings : string → string := λ _, "string".
Definition all_numbers : string → string := λ _, "int64".

End Cases.

(** ** Properties *)

Section Properties.
Context `{torch : Torch} `{trainers : !Trainers}.

(** *** Running the monad *)

Lemma run_bind {St A B} (m : prog St A) (k : A → prog St B) (s : St) :
  bind m k s =
  match m s with
  | (Returned a, s') => k a s'
  | (Raised e, s') => (Raised e, s')
  end.
Proof. reflexivity. Qed.

Lemma bind_returned_inv {St A B} (m : prog St A) (k : A → prog St B) s b s'' :
  bind m k s = (Returned b, s'') →
  ∃ a s', m s = (Returned a, s') ∧ k a s' = (Returned b, s'').
Proof.
  rewrite run_bind. destruct (m s) as [[a|e] s']; [eauto | discriminate].
Qed.

(** Splits a hypothesis saying that a sequence returned into its first
    step and the rest. *)
Tactic Notation "invert_bind" hyp(H) ident(a) ident(s) ident(Hstep) :=
  apply bind_returned_inv in H as (a & s & Hstep & H).

(** *** The steps of the loader, run *)

Lemma run_restore_model_state b (w : world) :
  restore_model_state b w =
  match b !! "model_state_dict" with
  | Some sd =>
      match model_load_state_dict (model w) sd with
      | (Returned _, m) =>
          (Returned (), World (disk w) m (optimizer w)
                          (events w ++ [Logged INFO MsgModelStateLoaded]))
      | (Raised e, m) => (Raised e, World (disk w) m (optimizer w) (events w))
      end
  | None => (Returned (), World (disk w) (model w) (optimizer w)
                            (events w ++ [Logged WARNING MsgNoModelState]))
  end.
Proof.
  unfold restore_model_state. destruct (b !! "model_state_dict") as [sd|]; [|done].
  unfold bind, model_load. by destruct (model_load_state_dict _ _) as [[[]|e] m].
Qed.

Lemma run_restore_optimizer_state b (w : world) :
  restore_optimizer_state b w =
  match b !! "optimizer_state_dict" with
  | Some sd =>
      match optimizer_load_state_dict (optimizer w) sd with
      | (Returned _, opt) =>
          (Returned (), World (disk w) (model w) opt
                          (events w ++ [Logged INFO MsgOptimizerStateLoaded]))
      | (Raised e, opt) => (Raised e, World (disk w) (model w) opt (events w))
      end
  | None => (Returned (), World (disk w) (model w) (optimizer w)
                            (events w ++ [Logged WARNING MsgNoOptimizerState]))
  end.
Proof.
  unfold restore_optimizer_state.
  destruct (b !! "optimizer_state_dict") as [sd|]; [|done].
  unfold bind, optimizer_load.
  by destruct (optimizer_load_state_dict _ _) as [[[]|e] opt].
Qed.

Lemma run_starting_epoch b s0 (w : world) :
  starting_epoch b s0 w =
  match b !! "epoch" with
  | Some epoch =>
      match py_add_one epoch with
      | Returned v =>
          (Returned v, World (disk w) (model w) (optimizer w)
                         (events w ++ [Logged INFO (MsgResumingFromEpoch v)]))
      | Raised e => (Raised e, w)
      end
  | None => (Returned s0, World (disk w) (model w) (optimizer w)
                            (events w ++ [Logged WARNING MsgNoEpochInformation]))
  end.
Proof.
  unfold starting_epoch. destruct (b !! "epoch") as [epoch|]; [|done].
  unfold bind, lift_outcome. by destruct (py_add_one epoch).
Qed.

Lemma run_log_checkpoint_loss b (w : world) :
  log_checkpoint_loss b w =
  match b !! "loss" with
  | Some loss =>
      match py_format_6f loss with
      | Returned _ =>
          (Returned (), World (disk w) (model w) (optimizer w)
                          (events w ++ [Logged INFO (MsgCheckpointLoss loss)]))
      | Raised e => (Raised e, w)
      end
  | None => (Returned (), w)
  end.
Proof.
  unfold log_checkpoint_loss. destruct (b !! "loss") as [loss|]; [|done].
  unfold bind, lift_outcome. by destruct (py_format_6f loss) as [[]|].
Qed.

Lemma run_load_checkpoint_body p s0 (w : world) b :
  disk w !! p = Some (Bundle b) →
  load_checkpoint_body p s0 w =
  (restore_model_state b ;;
   restore_optimizer_state b ;;
   start_epoch <- starting_epoch b s0 ;;
   log_checkpoint_loss b ;;
   ret start_epoch) w.
Proof.
  intros Hb. unfold load_checkpoint_body. rewrite run_bind.
  unfold torch_load at 1. by rewrite Hb.
Qed.

(** If the body returns, the file holds a bundle and the value returned is
    the one of the "starting epoch" step. *)
Lemma load_checkpoint_body_returned p s0 (w : world) v w' :
  load_checkpoint_body p s0 w = (Returned v, w') →
  ∃ b w1 w2, disk w !! p = Some (Bundle b) ∧
    starting_epoch b s0 w1 = (Returned v, w2).
Proof.
  intros H.
  destruct (disk w !! p) as [[b|e]|] eqn:Hb;
    [| unfold load_checkpoint_body, bind, torch_load in H; rewrite Hb in H; done ..].
  rewrite (run_load_checkpoint_body _ _ _ _ Hb) in H.
  invert_bind H u1 w1 H1. invert_bind H u2 w2 H2.
  invert_bind H v' w3 Hs. invert_bind H u4 w4 H4.
  injection H as -> ->. eauto.
Qed.

(** *** The loader, by cases on the path *)

Lemma run_loader_none (w : world) :
  load_checkpoint_for_resumption None w = (Returned (PyInt 0), w).
Proof. by destruct w. Qed.

Lemma run_loader_absent p (w : world) :
  p ≠ "" → disk w !! p = None →
  load_checkpoint_for_resumption (Some p) w =
    (Returned (PyInt 0),
     World (disk w) (model w) (optimizer w)
       (events w ++ [Logged WARNING (MsgCheckpointNotFound p)])).
Proof.
  intros Hne Hp.
  unfold load_checkpoint_for_resumption, os_path_exists, bind, ret, gets.
  simpl. destruct (String.eqb_spec p ""); [done|]. simpl.
  rewrite Hp. by rewrite bool_decide_eq_false_2 by (by intros [? ?]).
Qed.

Lemma run_loader_empty_path (w : world) :
  load_checkpoint_for_resumption (Some "") w = (Returned (PyInt 0), w).
Proof. by destruct w. Qed.

Lemma run_loader_found p f (w : world) :
  p ≠ "" → disk w !! p = Some f →
  load_checkpoint_for_resumption (Some p) w =
  match load_checkpoint_body p (PyInt 0)
          (World (disk w) (model w) (optimizer w)
             (events w ++ [Logged INFO (MsgResumingFromCheckpoint p)])) with
  | (Returned v, w') => (Returned v, w')
  | (Raised e, w') =>
      (Returned (PyInt 0),
       World (disk w') (model w') (optimizer w')
         (events w' ++ [Logged ERROR (MsgErrorLoadingCheckpoint e);
                        Logged WARNING MsgStartingFromScratch]))
  end.
Proof.
  intros Hne Hp. unfold load_checkpoint_for_resumption. simpl.
  destruct (String.eqb_spec p ""); [done|]. simpl.
  unfold os_path_exists.
  rewrite run_bind. unfold gets at 1.
  rewrite bool_decide_eq_true_2 by (by rewrite Hp).
  rewrite run_bind. unfold logger_info at 1, emit, modify.
  unfold try_except.
  destruct (load_checkpoint_body _ _ _) as [[v|e] w']; [done|].
  unfold logger_error, logger_warning, emit, modify, bind, ret. simpl.
  by rewrite <- app_assoc.
Qed.

(** The loader returns, whatever it is given. *)
Lemma load_checkpoint_never_raises (checkpoint_path : option string) (w : world) :
  is_raised (load_checkpoint_for_resumption checkpoint_path w).1 = false.
Proof.
  destruct checkpoint_path as [p|].
  - destruct (disk w !! p) as [f|] eqn:Hp.
    + destruct (decide (p = "")) as [->|Hne];
        [by rewrite run_loader_empty_path|].
      rewrite (run_loader_found _ _ _ Hne Hp).
      by destruct (load_checkpoint_body _ _ _) as [[v|e] w'].
    + destruct (decide (p = "")) as [->|Hne];
        [by rewrite run_loader_empty_path|].
      by rewrite run_loader_absent.
  - by rewrite run_loader_none.
Qed.

(** *** When the body of the [try] statement runs to its end *)

Lemma restore_model_state_returns b (w : world) :
  (∀ sd, b !! "model_state_dict" = Some sd →
         (model_load_state_dict (model w) sd).1 = Returned ()) ↔
  ∃ w', restore_model_state b w = (Returned (), w').
Proof.
  rewrite run_restore_model_state.
  destruct (b !! "model_state_dict") as [sd|]; [|split; [by eauto | done]].
  destruct (model_load_state_dict (model w) sd) as [[[]|e] m] eqn:Hrun; simpl.
  - split; [by eauto | intros _ ? [= <-]; by rewrite Hrun].
  - split; [intros H; specialize (H sd eq_refl); by rewrite Hrun in H
           | by intros [? ?]].
Qed.

Lemma restore_model_state_optimizer b (w : world) o w' :
  restore_model_state b w = (o, w') → optimizer w' = optimizer w.
Proof.
  rewrite run_restore_model_state.
  destruct (b !! "model_state_dict") as [sd|];
    [destruct (model_load_state_dict (model w) sd) as [[[]|e] m]|];
    by intros [= <- <-].
Qed.

Lemma restore_optimizer_state_returns b (w : world) :
  (∀ sd, b !! "optimizer_state_dict" = Some sd →
         (optimizer_load_state_dict (optimizer w) sd).1 = Returned ()) ↔
  ∃ w', restore_optimizer_state b w = (Returned (), w').
Proof.
  rewrite run_restore_optimizer_state.
  destruct (b !! "optimizer_state_dict") as [sd|]; [|split; [by eauto | done]].
  destruct (optimizer_load_state_dict (optimizer w) sd) as [[[]|e] opt] eqn:Hrun; simpl.
  - split; [by eauto | intros _ ? [= <-]; by rewrite Hrun].
  - split; [intros H; specialize (H sd eq_refl); by rewrite Hrun in H
           | by intros [? ?]].
Qed.

Lemma starting_epoch_returns b s0 (w : world) :
  (∀ epoch, b !! "epoch" = Some epoch → is_raised (py_add_one epoch) = false) ↔
  ∃ v w', starting_epoch b s0 w = (Returned v, w').
Proof.
  rewrite run_starting_epoch.
  destruct (b !! "epoch") as [epoch|]; [|split; [by eauto | done]].
  destruct (py_add_one epoch) as [v|e] eqn:Hrun; simpl.
  - split; [by eauto | intros _ ? [= <-]; by rewrite Hrun].
  - split; [intros H; specialize (H epoch eq_refl); by rewrite Hrun in H
           | by intros (? & ? & ?)].
Qed.

Lemma log_checkpoint_loss_returns b (w : world) :
  (∀ loss, b !! "loss" = Some loss → py_format_6f loss = Returned ()) ↔
  ∃ w', log_checkpoint_loss b w = (Returned (), w').
Proof.
  rewrite run_log_checkpoint_loss.
  destruct (b !! "loss") as [loss|]; [|split; [by eauto | done]].
  destruct (py_format_6f loss) as [[]|e] eqn:Hrun; simpl.
  - split; [by eauto | intros _ ? [= <-]; by rewrite Hrun].
  - split; [intros H; specialize (H loss eq_refl); by rewrite Hrun in H
           | by intros [? ?]].
Qed.

(** The body runs to its end exactly when the file holds a bundle on which
    none of the four steps raises; the events logged so far play no part. *)
Lemma try_body_completes_iff p (w : world) :
  try_body_completes p w ↔
  ∃ b, disk w !! p = Some (Bundle b) ∧ steps_succeed b w.
Proof.
  unfold try_body_completes, steps_succeed. split.
  - intros (v & w' & H).
    destruct (load_checkpoint_body_returned _ _ _ _ _ H) as (b & _ & _ & Hb & _).
    exists b. split; [done|].
    rewrite (run_load_checkpoint_body _ _ _ _ Hb) in H.
    invert_bind H u1 w1 H1. invert_bind H u2 w2 H2.
    invert_bind H v' w3 H3. invert_bind H u4 w4 H4.
    destruct u1, u2, u4.
    rewrite <- (restore_model_state_optimizer _ _ _ _ H1).
    rewrite restore_model_state_returns, restore_optimizer_state_returns,
      (starting_epoch_returns b (PyInt 0) w2), (log_checkpoint_loss_returns b w3).
    eauto 10.
  - intros (b & Hb & Hm & Ho & He & Hl).
    rewrite (run_load_checkpoint_body _ _ _ _ Hb).
    apply restore_model_state_returns in Hm as [w1 H1].
    rewrite <- (restore_model_state_optimizer _ _ _ _ H1) in Ho.
    apply restore_optimizer_state_returns in Ho as [w2 H2].
    apply (starting_epoch_returns b (PyInt 0) w2) in He as (v & w3 & H3).
    apply (log_checkpoint_loss_returns b w3) in Hl as [w4 H4].
    exists v, w4. by rewrite run_bind, H1, run_bind, H2, run_bind, H3, run_bind, H4.
Qed.

Lemma try_body_completes_events p (w : world) l :
  try_body_completes p w →
  try_body_completes p (World (disk w) (model w) (optimizer w) l).
Proof. by rewrite !try_body_completes_iff. Qed.

Lemma load_failure_not_successful p f (w : world) l :
  disk w !! p = Some f → load_failure w f →
  ¬ try_body_completes p (World (disk w) (model w) (optimizer w) l).
Proof.
  intros Hp Hf. rewrite try_body_completes_iff. simpl.
  intros (b & Hb & Hm & Ho & _). rewrite Hp in Hb. simpl in *.
  destruct Hf as [e | b' sd Hsd Hr | b' sd Hsd Hr]; [done | ..];
    injection Hb as ->.
  - by rewrite (Hm sd Hsd) in Hr.
  - by rewrite (Ho sd Hsd) in Hr.
Qed.

(** *** The claims about the loader *)

(** C8.  For a checkpoint path that is [None] or names no file on the
    disk, the loader returns start-epoch 0 without raising and leaves the
    model, the optimizer and the disk as they were; it logs a warning, and
    only if a path was given. *)
Theorem load_missing_checkpoint (checkpoint_path : option string) (w : world) :
  (checkpoint_path = None ∨ ∃ p, checkpoint_path = Some p ∧ disk w !! p = None) →
  load_checkpoint_for_resumption checkpoint_path w =
    (Returned (PyInt 0),
     World (disk w) (model w) (optimizer w)
       (events w ++ not_found_warning checkpoint_path)).
Proof.
  intros [-> | (p & -> & Hp)]; unfold not_found_warning.
  - rewrite run_loader_none. simpl. rewrite app_nil_r. by destruct w.
  - destruct (decide (p = "")) as [->|Hne].
    + rewrite run_loader_empty_path. simpl. rewrite app_nil_r. by destruct w.
    + rewrite (run_loader_absent _ _ Hne Hp). simpl.
      by destruct (String.eqb_spec p "").
Qed.

(** C9.  If the file at the path holds a bundle without an 'epoch' entry,
    the loader returns start-epoch 0 (whether or not the rest of the load
    succeeds). *)
Theorem load_bundle_without_epoch (p : string) (b : gmap string pyval) (w : world) :
  disk w !! p = Some (Bundle b) →
  b !! "epoch" = None →
  (load_checkpoint_for_resumption (Some p) w).1 = Returned (PyInt 0).
Proof.
  intros Hp He.
  destruct (decide (p = "")) as [->|Hne]; [by rewrite run_loader_empty_path|].
  rewrite (run_loader_found _ _ _ Hne Hp).
  destruct (load_checkpoint_body _ _ _) as [[v|e] w'] eqn:Hbody; [|done].
  apply load_checkpoint_body_returned in Hbody as (b' & w1 & w2 & Hb & Hs).
  simpl in Hb. rewrite Hp in Hb. injection Hb as <-.
  rewrite run_starting_epoch, He in Hs. by injection Hs as <- _.
Qed.


(** C5.  If the file at the path exists and the load of the bundle, of the
    model state or of the optimizer state raises, the loader does not
    raise: it returns start-epoch 0. *)
Theorem load_errors_are_caught (p : string) (f : file) (w : world) :
  disk w !! p = Some f →
  load_failure w f →
  ∃ w', load_checkpoint_for_resumption (Some p) w = (Returned (PyInt 0), w').
Proof.
  intros Hp Hf.
  destruct (decide (p = "")) as [->|Hne];
    [rewrite run_loader_empty_path; by eexists|].
  rewrite (run_loader_found _ _ _ Hne Hp).
  destruct (load_checkpoint_body _ _ _) as [[v|e] w'] eqn:Hbody; [|by eexists].
  exfalso. eapply (load_failure_not_successful p f w); [done..|].
  by exists v, w'.
Qed.

(** C4, as amended.  If the file at the path holds a bundle whose
    model-state entry the model rejects with an exception [e] (a shape
    mismatch, say), the loader catches [e]: it logs the error and the
    "starting from scratch" warning and returns start-epoch 0.  The
    optimizer and the disk are untouched and the model is as the failed
    load left it. *)
Theorem load_shape_mismatch_is_caught
    (p : string) (b : gmap string pyval) (sd : pyval) (e : exn) (m' : Model)
    (w : world) :
  p ≠ "" →
  disk w !! p = Some (Bundle b) →
  b !! "model_state_dict" = Some sd →
  model_load_state_dict (model w) sd = (Raised e, m') →
  load_checkpoint_for_resumption (Some p) w =
    (Returned (PyInt 0),
     World (disk w) m' (optimizer w)
       (events w ++ [Logged INFO (MsgResumingFromCheckpoint p);
                     Logged ERROR (MsgErrorLoadingCheckpoint e);
                     Logged WARNING MsgStartingFromScratch])).
Proof.
  intros Hne Hp Hsd Hload.
  rewrite (run_loader_found _ _ _ Hne Hp).
  rewrite (run_load_checkpoint_body _ _ _ b) by done.
  rewrite run_bind, run_restore_model_state, Hsd. simpl. rewrite Hload.
  simpl. by rewrite <- app_assoc.
Qed.

(** *** Checkpoint-saving calls and the events they leave *)

(** A call of a checkpoint-saving function returns, and what it adds to
    the events starts with the call itself. *)
Lemma call_save_checkpoint_events f out path epoch kwargs (w : world) :
  ∃ w' l, call_save_checkpoint f out path epoch kwargs w = (Returned (), w') ∧
          events w' = events w ++ SaveInvoked f path epoch kwargs :: l.
Proof.
  revert path epoch w.
  induction f as [|start orig IH]; intros path epoch w; simpl.
  - eexists _, []. split; reflexivity.
  - rewrite run_bind. simpl.
    edestruct IH as (w' & l & -> & Hev).
    eexists _, _. split; [reflexivity|]. rewrite Hev. simpl.
    rewrite <- app_assoc. reflexivity.
Qed.

(** A call of the closure is followed at once by the call of the function
    it replaced; when an epoch is given and the output directory is set,
    that call gets the offset epoch and the file name made from it. *)
Lemma adjusted_save_checkpoint_events start orig out path epoch kwargs (w : world) :
  ∃ w' l,
    call_save_checkpoint (adjusted_save_checkpoint start orig) out
      path epoch kwargs w = (Returned (), w') ∧
    events w' = events w ++
      SaveInvoked (adjusted_save_checkpoint start orig) path epoch kwargs :: l ∧
    ∀ i d, epoch = Some i → out = Some d → d ≠ "" →
      l !! 0%nat =
        Some (SaveInvoked orig
                (os_path_join d ("checkpoint_epoch_" +:+ str_int (i + start) +:+ ".pt"))
                (Some (i + start)) kwargs).
Proof.
  simpl. rewrite run_bind. simpl.
  edestruct (call_save_checkpoint_events orig) as (w' & l & -> & Hev).
  eexists _, _. split; [reflexivity|]. rewrite Hev. simpl.
  rewrite <- app_assoc. split; [reflexivity|].
  intros i d -> -> Hd. simpl.
  by destruct (String.eqb_spec d "").
Qed.

Lemma run_script_saves (self : trainer) start orig s (w : world) :
  save_checkpoint self = adjusted_save_checkpoint start orig →
  ∃ tail, events (run_script self s w).2 = events w ++ tail ∧
    ∀ k path i kwargs d,
      save_requests self s !! k = Some (path, Some i, kwargs) →
      output_dir self = Some d → d ≠ "" →
      ∃ j, tail !! j = Some (SaveInvoked (adjusted_save_checkpoint start orig)
                               path (Some i) kwargs) ∧
           tail !! (j + 1)%nat =
             Some (SaveInvoked orig
                     (os_path_join d ("checkpoint_epoch_" +:+ str_int (i + start) +:+ ".pt"))
                     (Some (i + start)) kwargs).
Proof.
  intros Hsave. revert w.
  induction s as [r | e | s IH | s IH | s IH | path epoch kwargs s IH];
    intros w; simpl.
  - exists []. split; [by rewrite app_nil_r|]. intros k ????. by rewrite lookup_nil.
  - exists []. split; [by rewrite app_nil_r|]. intros k ????. by rewrite lookup_nil.
  - rewrite run_bind. simpl.
    destruct (train_one_epoch (model w) (optimizer w)) as [m opt].
    edestruct IH as (tail & -> & Htail). simpl. eauto.
  - apply IH.
  - apply IH.
  - rewrite run_bind, Hsave.
    edestruct (adjusted_save_checkpoint_events start orig (output_dir self)
                 path epoch kwargs w) as (w' & l & -> & Hw' & Hl).
    edestruct (IH w') as (tail & -> & Htail). rewrite Hw'.
    eexists. split; [rewrite <- app_assoc; reflexivity|].
    intros [|k] path' i' kwargs' d Hk Hout Hd; simpl in Hk.
    + injection Hk as <- -> <-. exists 0%nat. split; [done|].
      simpl. rewrite lookup_app_l; [by eapply Hl|].
      eapply lookup_lt_Some, Hl; done.
    + destruct (Htail _ _ _ _ _ Hk Hout Hd) as (j & Hj & Hj').
      exists (1 + (length l + j))%nat. simpl.
      rewrite !lookup_app_r by lia.
      replace (length l + j - length l)%nat with j by lia.
      replace (length l + j + 1 - length l)%nat with (j + 1)%nat by lia.
      done.
Qed.

(** *** The resume wrapper, run *)

(** [train] in one piece: either the short cut, or the wrapped trainer's
    run on the patched trainer, followed (if it returns) by the two
    restoring assignments. *)
Lemma run_train (self : ResumeTrainer) (tr : trainer) (w : world) :
  train self (tr, w) =
  if num_epochs tr - current_epoch self <=? 0 then
    (Returned no_training_result,
     (tr, World (disk w) (model w) (optimizer w)
            (events w ++ [Logged WARNING (MsgNoEpochsRemaining (current_epoch self))])))
  else
    match trainer_train (patched_trainer self tr) w with
    | (Returned result, w') => (Returned result, (tr, w'))
    | (Raised e, w') => (Raised e, (patched_trainer self tr, w'))
    end.
Proof.
  destruct tr as [n out f body].
  unfold train. rewrite run_bind. unfold get_num_epochs, gets. simpl.
  destruct (n - current_epoch self <=? 0); [done|].
  unfold set_num_epochs, get_save_checkpoint, set_save_checkpoint,
    call_trainer_train, in_world, bind, modify, gets, ret, patched_trainer. simpl.
  by destruct (trainer_train _ w) as [[result|e] w'].
Qed.

(** *** The claims about the resume wrapper *)


(** C7.  If [train] returns, the trainer object is again what it was
    before the call (its [num_epochs] and [save_checkpoint] in
    particular); the value returned is the one the wrapped trainer's run
    returned if there were epochs left, and the zero result if not. *)
Theorem train_restores_trainer
    (self : ResumeTrainer) (tr tr' : trainer) (w w' : world) (result : pyval) :
  train self (tr, w) = (Returned result, (tr', w')) →
  num_epochs tr' = num_epochs tr ∧
  save_checkpoint tr' = save_checkpoint tr ∧
  tr' = tr ∧
  if num_epochs tr - current_epoch self <=? 0
  then result = no_training_result
  else trainer_train (patched_trainer self tr) w = (Returned result, w').
Proof.
  rewrite run_train.
  destruct (num_epochs tr - current_epoch self <=? 0).
  - by intros [= <- <- <-].
  - destruct (trainer_train _ w) as [[r|e] w1]; [|done].
    by intros [= <- <- <-].
Qed.

(** C10.  If there are epochs left and the wrapped trainer's run raises,
    [train] raises the same exception, and the trainer object is left
    patched: [num_epochs] is the number of remaining epochs and
    [save_checkpoint] is the closure. *)
Theorem train_exception_keeps_patch
    (self : ResumeTrainer) (tr : trainer) (w w' : world) (e : exn) :
  0 < num_epochs tr - current_epoch self →
  trainer_train (patched_trainer self tr) w = (Raised e, w') →
  train self (tr, w) =
    (Raised e,
     ({| num_epochs := num_epochs tr - current_epoch self;
         output_dir := output_dir tr;
         save_checkpoint :=
           adjusted_save_checkpoint (current_epoch self) (save_checkpoint tr);
         train_method := train_method tr |}, w')).
Proof.
  intros H He. rewrite run_train.
  destruct (Z.leb_spec (num_epochs tr - current_epoch self) 0); [lia|].
  by rewrite He.
Qed.

(** C1.  With [total] epochs configured and a start epoch [start] below
    it, [train] enters the wrapped trainer's run with [num_epochs] set to
    [total - start] and [save_checkpoint] set to the closure; and every
    call [self.save_checkpoint(path, i, **kwargs)] that this run makes,
    when the output directory is set, is followed at once by a call of the
    original function with the path
    [output_dir/checkpoint_epoch_{i+start}.pt] and the epoch
    [i + start]. *)
Theorem train_offsets_checkpoints
    (self : ResumeTrainer) (tr : trainer) (w : world) (total start : Z) :
  num_epochs tr = total →
  current_epoch self = start →
  start < total →
  ∃ tail,
    events (train self (tr, w)).2.2 =
      events w ++
      TrainInvoked (total - start)
        (adjusted_save_checkpoint start (save_checkpoint tr)) :: tail ∧
    ∀ k path i kwargs d,
      save_requests (patched_trainer self tr) (train_method tr) !! k =
        Some (path, Some i, kwargs) →
      output_dir tr = Some d → d ≠ "" →
      ∃ j,
        tail !! j =
          Some (SaveInvoked (adjusted_save_checkpoint start (save_checkpoint tr))
                  path (Some i) kwargs) ∧
        tail !! (j + 1)%nat =
          Some (SaveInvoked (save_checkpoint tr)
                  (os_path_join d ("checkpoint_epoch_" +:+ str_int (i + start) +:+ ".pt"))
                  (Some (i + start)) kwargs).
Proof.
  intros Ht Hs Hlt. rewrite run_train, Ht, Hs.
  destruct (Z.leb_spec (total - start) 0); [lia|].
  set (w0 := World (disk w) (model w) (optimizer w)
               (events w ++ [TrainInvoked (total - start)
                  (adjusted_save_checkpoint start (save_checkpoint tr))])).
  destruct (run_script_saves (patched_trainer self tr) start (save_checkpoint tr)
              (train_method tr) w0) as (tail & Hev & Htail).
  { unfold patched_trainer. simpl. by rewrite Hs. }
  exists tail. split; [|exact Htail].
  assert ((trainer_train (patched_trainer self tr) w).2 =
          (run_script (patched_trainer self tr) (train_method tr) w0).2) as Hrun.
  { unfold trainer_train, patched_trainer, w0. rewrite run_bind. simpl.
    by rewrite Ht, Hs. }
  destruct (trainer_train (patched_trainer self tr) w) as [[r|e] w']; simpl in *;
    rewrite Hrun, Hev; unfold w0; simpl; by rewrite <- app_assoc.
Qed.

(** *** The final checkpoint of [main] *)

Lemma save_dict_epoch args setup result (w : world) :
  save_dict args setup result w !! "epoch" = Some (PyInt (args_num_epochs args)).
Proof. unfold save_dict. simpl. by simplify_map_eq. Qed.

(** Whatever the wrapped trainer does, a run of [main] that comes to its
    end has filed the final model with the configured number of epochs as
    its epoch entry. *)
Lemma main_final_bundle_epoch train_body args setup (w w' : world) :
  main train_body args setup w = Some (Returned (), w') →
  epoch_entry (disk w')
    (os_path_join (args_output_dir args) (save_model_filename args)) =
    Some (PyInt (args_num_epochs args)).
Proof.
  unfold main, epoch_entry.
  destruct (load_checkpoint_for_resumption _ w) as [[[]|e] w0]; try done.
  destruct (main_train_and_save _ _ _ _) as [o [tr w1]] eqn:Hrun.
  intros [= -> <-]. unfold main_train_and_save in Hrun.
  invert_bind Hrun u1 s1 H1. invert_bind Hrun result s2 H2.
  invert_bind Hrun u3 s3 H3.
  unfold in_world, bind, gets, torch_save, logger_info, emit, modify in Hrun.
  simpl in Hrun. injection Hrun as _ <-. simpl.
  rewrite lookup_insert_eq. apply save_dict_epoch.
Qed.

End Properties.

(** ** The properties at work *)

Import Example.

(** The example of the specification: with 3 epochs done out of 5, the
    wrapper has the trainer run 2 epochs, and the trainer's epochs 0 and 1
    are filed as [checkpoint_epoch_3.pt] and [checkpoint_epoch_4.pt] with
    the epoch entries 3 and 4. *)
Example resume_three_of_five :
  let run := train (ResumeTrainer_init 3) (trainer5, fresh_world ∅) in
  events run.2.2 =
    [TrainInvoked 2 (adjusted_save_checkpoint 3 bound_save_checkpoint);
     SaveInvoked (adjusted_save_checkpoint 3 bound_save_checkpoint)
       "out/checkpoint_epoch_0.pt" (Some 0) ∅;
     SaveInvoked bound_save_checkpoint "out/checkpoint_epoch_3.pt" (Some 3) ∅;
     SaveInvoked (adjusted_save_checkpoint 3 bound_save_checkpoint)
       "out/checkpoint_epoch_1.pt" (Some 1) ∅;
     SaveInvoked bound_save_checkpoint "out/checkpoint_epoch_4.pt" (Some 4) ∅] ∧
  epoch_entry (disk run.2.2) "out/checkpoint_epoch_3.pt" = Some (PyInt 3) ∧
  epoch_entry (disk run.2.2) "out/checkpoint_epoch_4.pt" = Some (PyInt 4) ∧
  epoch_entry (disk run.2.2) "out/checkpoint_epoch_0.pt" = None.
Proof. vm_compute. done. Qed.

Lemma train_offsets_checkpoints_witness :
  let self := ResumeTrainer_init 3 in
  ∃ tail,
    events (train self (trainer5, fresh_world ∅)).2.2 =
      TrainInvoked 2 (adjusted_save_checkpoint 3 bound_save_checkpoint) :: tail ∧
    ∀ k path i kwargs d,
      save_requests (patched_trainer self trainer5) generic_train !! k =
        Some (path, Some i, kwargs) →
      Some "out" = Some d → d ≠ "" →
      ∃ j,
        tail !! j =
          Some (SaveInvoked (adjusted_save_checkpoint 3 bound_save_checkpoint)
                  path (Some i) kwargs) ∧
        tail !! (j + 1)%nat =
          Some (SaveInvoked bound_save_checkpoint
                  (os_path_join d ("checkpoint_epoch_" +:+ str_int (i + 3) +:+ ".pt"))
                  (Some (i + 3)) kwargs).
Proof.
  intros self.
  apply (train_offsets_checkpoints self trainer5 (fresh_world ∅) 5 3);
    [reflexivity | reflexivity | lia].
Defined.



(** An epoch entry that is a tensor is incremented as a tensor: for
    [tensor(3)] the loader returns [tensor(4)]. *)
Example tensor_epoch_is_incremented :
  (load_checkpoint_for_resumption (torch := Cases.tensor_torch)
     (Some "out/checkpoint_epoch_3.pt")
     (World (torch := Cases.tensor_torch) Cases.tensor_epoch_disk (4, 0) 0 [])).1 =
    Returned (PyObj 4).
Proof. vm_compute. reflexivity. Qed.


(** C4, as stated, fails: the model rejects the state dict of the bundle
    with a size-mismatch error, and yet the loader does not raise; it
    returns start-epoch 0. *)
Lemma shape_mismatch_does_not_abort :
  let w := fresh_world mismatched_disk in
  let sd := toy_model_state_dict (8, 4) in
  disk w !! "out/checkpoint_epoch_3.pt" = Some (Bundle (saved_bundle 8 3)) ∧
  saved_bundle 8 3 !! "model_state_dict" = Some sd ∧
  model_load_state_dict (model w) sd = (Raised size_mismatch, model w) ∧
  (load_checkpoint_for_resumption (Some "out/checkpoint_epoch_3.pt") w).1 =
    Returned (PyInt 0) ∧
  ¬ ∃ e w',
      load_checkpoint_for_resumption (Some "out/checkpoint_epoch_3.pt") w =
        (Raised e, w').
Proof.
  intros w sd. repeat split; try reflexivity.
  intros (e & w' & H). vm_compute in H. discriminate H.
Qed.

Lemma load_shape_mismatch_is_caught_witness :
  load_checkpoint_for_resumption (Some "out/checkpoint_epoch_3.pt")
    (fresh_world mismatched_disk) =
    (Returned (PyInt 0),
     World mismatched_disk (4, 0) 0
       [Logged INFO (MsgResumingFromCheckpoint "out/checkpoint_epoch_3.pt");
        Logged ERROR (MsgErrorLoadingCheckpoint size_mismatch);
        Logged WARNING MsgStartingFromScratch]).
Proof.
  apply (load_shape_mismatch_is_caught (torch := toy_torch) "out/checkpoint_epoch_3.pt"
           (saved_bundle 8 3) (toy_model_state_dict (8, 4)) size_mismatch (4, 0)
           (fresh_world mismatched_disk));
    [discriminate | reflexivity | reflexivity | reflexivity].
Defined.

Lemma load_errors_are_caught_witness :
  ∃ w', load_checkpoint_for_resumption (Some "out/checkpoint_epoch_3.pt")
          (fresh_world corrupt_disk) = (Returned (PyInt 0), w').
Proof.
  apply (load_errors_are_caught "out/checkpoint_epoch_3.pt"
           (Unreadable (Exception UnpicklingError "invalid load key"))
           (fresh_world corrupt_disk)).
  - reflexivity.
  - apply bundle_unreadable.
Defined.

(** C6 fails for the final checkpoint of [main].  A first run of two
    epochs trains the epochs 0 and 1; the trainer files the last of them
    with the epoch entry 1, but [main] files the final model with the epoch
    entry 2.  A run resumed from the final model for three epochs in all
    starts at epoch 3 and trains nothing, whereas a run resumed from the
    trainer's last checkpoint starts at epoch 2 and trains the third
    epoch. *)
Theorem final_checkpoint_overstates_epoch :
  model <$> world_after first_run = Some (4, 2) ∧
  epoch_entry (disk_after first_run) "out/checkpoint_epoch_1.pt" = Some (PyInt 1) ∧
  epoch_entry (disk_after first_run) "out/symbolic_model.pt" = Some (PyInt 2) ∧
  (load_checkpoint_for_resumption (Some "out/symbolic_model.pt")
     (fresh_world (disk_after first_run))).1 = Returned (PyInt 3) ∧
  model <$> world_after (resumed_run "out/symbolic_model.pt") = Some (4, 2) ∧
  events <$> world_after (resumed_run "out/symbolic_model.pt") =
    Some [Logged INFO (MsgResumingFromCheckpoint "out/symbolic_model.pt");
          Logged INFO MsgModelStateLoaded;
          Logged INFO MsgOptimizerStateLoaded;
          Logged INFO (MsgResumingFromEpoch (PyInt 3));
          Logged INFO (MsgStartingTraining 3);
          Logged WARNING (MsgNoEpochsRemaining 3);
          Logged INFO MsgTrainingCompleted;
          Logged INFO (MsgModelSaved "out/symbolic_model.pt")] ∧
  model <$> world_after (resumed_run "out/checkpoint_epoch_1.pt") = Some (4, 3) ∧
  events <$> world_after (resumed_run "out/checkpoint_epoch_1.pt") =
    Some [Logged INFO (MsgResumingFromCheckpoint "out/checkpoint_epoch_1.pt");
          Logged INFO MsgModelStateLoaded;
          Logged INFO MsgOptimizerStateLoaded;
          Logged INFO (MsgResumingFromEpoch (PyInt 2));
          Logged INFO (MsgStartingTraining 2);
          TrainInvoked 1 (adjusted_save_checkpoint 2 bound_save_checkpoint);
          SaveInvoked (adjusted_save_checkpoint 2 bound_save_checkpoint)
            "out/checkpoint_epoch_0.pt" (Some 0) ∅;
          SaveInvoked bound_save_checkpoint "out/checkpoint_epoch_2.pt" (Some 2) ∅;
          Logged INFO MsgTrainingCompleted;
          Logged INFO (MsgModelSaved "out/symbolic_model.pt")].
Proof. repeat split; vm_compute; reflexivity. Qed.

Lemma train_restores_trainer_witness :
  let self := ResumeTrainer_init 3 in
  let run := train self (trainer5, fresh_world ∅) in
  run = (Returned generic_train_result, (trainer5, run.2.2)) ∧
  trainer_train (patched_trainer self trainer5) (fresh_world ∅) =
    (Returned generic_train_result, run.2.2).
Proof.
  intros self run.
  assert (run = (Returned generic_train_result, (trainer5, run.2.2))) as H
    by (vm_compute; reflexivity).
  split; [exact H|].
  exact (proj2 (proj2 (proj2
    (train_restores_trainer self trainer5 trainer5 (fresh_world ∅) run.2.2
       generic_train_result H)))).
Defined.

Lemma load_missing_checkpoint_witness :
  load_checkpoint_for_resumption (Some "out/checkpoint_epoch_9.pt") (fresh_world ∅) =
    (Returned (PyInt 0),
     World ∅ (4, 0) 0
       [Logged WARNING (MsgCheckpointNotFound "out/checkpoint_epoch_9.pt")]).
Proof.
  apply (load_missing_checkpoint (Some "out/checkpoint_epoch_9.pt") (fresh_world ∅)).
  right. exists "out/checkpoint_epoch_9.pt". split; reflexivity.
Defined.

Lemma load_bundle_without_epoch_witness :
  (load_checkpoint_for_resumption (Some "out/checkpoint_epoch_3.pt")
     (fresh_world epochless_disk)).1 = Returned (PyInt 0).
Proof.
  apply (load_bundle_without_epoch "out/checkpoint_epoch_3.pt" bundle_without_epoch
           (fresh_world epochless_disk));
    reflexivity.
Defined.

Lemma train_exception_keeps_patch_witness :
  let self := ResumeTrainer_init 3 in
  let e := Exception RuntimeError "CUDA out of memory" in
  let w' := World ∅ (4, 1) 1
              [TrainInvoked 2 (adjusted_save_checkpoint 3 bound_save_checkpoint)] in
  train self (failing_trainer, fresh_world ∅) =
    (Raised e,
     ({| num_epochs := 2;
         output_dir := Some "out";
         save_checkpoint := adjusted_save_checkpoint 3 bound_save_checkpoint;
         train_method := train_method failing_trainer |}, w')).
Proof.
  intros self e w'.
  apply (train_exception_keeps_patch self failing_trainer (fresh_world ∅) w' e);
    [simpl; lia | reflexivity].
Defined.

(** ** Further properties *)

(** *** Text *)

Lemma string_length_app (a b : string) :
  String.length (a +:+ b) = (String.length a + String.length b)%nat.
Proof.
  induction a as [|c a IH]; [reflexivity|].
  change (String c a +:+ b) with (String c (a +:+ b)). simpl. by rewrite IH.
Qed.

Lemma string_app_inj_r (a b c : string) : a +:+ c = b +:+ c → a = b.
Proof.
  revert b. induction a as [|x a IH]; intros [|y b] H.
  - done.
  - apply (f_equal String.length) in H.
    rewrite !string_length_app in H. simpl in H. lia.
  - apply (f_equal String.length) in H.
    rewrite !string_length_app in H. simpl in H. lia.
  - change (String x (a +:+ c) = String y (b +:+ c)) in H.
    injection H as -> H. f_equal. by apply IH.
Qed.

Lemma lower_char_idem c : lower_char (lower_char c) = lower_char c.
Proof. destruct c as [[] [] [] [] [] [] [] []]; reflexivity. Qed.

Lemma py_lower_idem s : py_lower (py_lower s) = py_lower s.
Proof. induction s as [|c s IH]; simpl; [done|]. by rewrite lower_char_idem, IH. Qed.

Lemma py_lower_app a b : py_lower (a +:+ b) = py_lower a +:+ py_lower b.
Proof.
  induction a as [|c a IH]; [done|].
  change (String c a +:+ b) with (String c (a +:+ b)). simpl. by rewrite IH.
Qed.

Lemma prefix_app_r n h y : String.prefix n h = true → String.prefix n (h +:+ y) = true.
Proof.
  revert h. induction n as [|c n IH]; intros [|c' h]; simpl; try done.
  - intros _. by destruct y.
  - change (String c' h +:+ y) with (String c' (h +:+ y)). simpl.
    destruct (ascii_dec c c'); [apply IH|done].
Qed.

Lemma contains_app_r n h y : contains n h = true → contains n (h +:+ y) = true.
Proof.
  induction h as [|c h IH].
  - simpl. rewrite orb_false_r. intros H. destruct n; [|done]. by destruct y.
  - change (String c h +:+ y) with (String c (h +:+ y)). simpl.
    intros [H|H]%orb_true_iff; apply orb_true_iff.
    + left. by apply (prefix_app_r n (String c h) y).
    + right. by apply IH.
Qed.

Lemma contains_app_l n x h : contains n h = true → contains n (x +:+ h) = true.
Proof.
  induction x as [|c x IH]; [done|].
  change (String c x +:+ h) with (String c (x +:+ h)). simpl.
  intros H. apply orb_true_iff. right. by apply IH.
Qed.

Lemma any_in_extend words pre text post :
  any_in words text = true → any_in words (pre +:+ text +:+ post) = true.
Proof.
  unfold any_in. rewrite !existsb_exists. intros (word & Hin & H).
  exists word. split; [done|]. by apply contains_app_l, contains_app_r.
Qed.

(** X9. The heuristic does not tell upper case from lower case, in the
    prompt or in the generated text. *)
Theorem analysis_ignores_case (prompt generated_text : string) :
  analyze_symbolic_consistency (py_lower prompt) (py_lower generated_text) =
  analyze_symbolic_consistency prompt generated_text.
Proof. unfold analyze_symbolic_consistency. by rewrite !py_lower_idem. Qed.

(** None of the prompts of the interpretability test has a note,
    whatever is generated for it. *)
Lemma test_prompts_no_note (prompt generated_part : string) :
  prompt ∈ test_prompts →
  analyze_symbolic_consistency prompt generated_part = None.
Proof.
  unfold test_prompts. rewrite !elem_of_cons, elem_of_nil.
  intros [-> | [-> | [-> | []]]]; reflexivity.
Qed.

(** X10. A note is not lost by generating more: if a generated text
    gets a note, so does every text that contains it. *)
Theorem note_survives_longer_generation (prompt pre generated_text post : string) :
  is_Some (analyze_symbolic_consistency prompt generated_text) →
  is_Some (analyze_symbolic_consistency prompt (pre +:+ generated_text +:+ post)).
Proof.
  unfold analyze_symbolic_consistency. rewrite !py_lower_app.
  set (pl := py_lower prompt). set (gl := py_lower generated_text).
  set (gl' := py_lower pre +:+ gl +:+ py_lower post).
  assert (∀ words, any_in words gl = true → any_in words gl' = true) as Hext
    by (intros; by apply any_in_extend).
  destruct (any_in ["then"; "therefore"; "so"] gl) eqn:Hg;
    [rewrite (Hext _ Hg)|];
    (destruct (any_in ["="; "equals"; "is"] gl) eqn:Hm; [rewrite (Hext _ Hm)|]);
    destruct (contains "if" pl), (contains "then" pl),
      (any_in ["a b c"; "1 2 3"; "monday tuesday"] pl),
      (any_in ["equals"; "+"; "-"; "plus"; "minus"] pl);
    cbn [andb]; try done; try (by intros [? ?]);
    repeat match goal with
      | |- context [if ?c then _ else _] => destruct c
      end; try done; by intros [? ?].
Qed.

(** X11. For an empty generation the only note there can be is the
    one about sequences, which looks at the prompt alone. *)
Theorem empty_generation_note (prompt : string) :
  analyze_symbolic_consistency prompt "" =
  if any_in ["a b c"; "1 2 3"; "monday tuesday"] (py_lower prompt)
  then Some "Sequence pattern detected"
  else None.
Proof.
  unfold analyze_symbolic_consistency.
  change (any_in ["then"; "therefore"; "so"] (py_lower "")) with false.
  change (any_in ["="; "equals"; "is"] (py_lower "")) with false.
  by rewrite !andb_false_r.
Qed.

(** *** Checkpoint paths *)

(** X7. Checkpoints of different epochs are filed under different
    paths, whatever the output directory is. *)
Theorem checkpoint_paths_distinct (d : string) (i j : Z) :
  i ≠ j →
  os_path_join d ("checkpoint_epoch_" +:+ str_int i +:+ ".pt") ≠
  os_path_join d ("checkpoint_epoch_" +:+ str_int j +:+ ".pt").
Proof.
  intros Hne H. apply Hne. revert H.
  unfold os_path_join. cbn [starts_with_sep String.append].
  change (Ascii.eqb "c" "/") with false. cbv iota. intros H.
  assert (str_int i +:+ ".pt" = str_int j +:+ ".pt") as H'.
  { destruct (_ || _).
    - apply String.app_inj in H. by apply (String.app_inj "checkpoint_epoch_").
    - do 2 apply String.app_inj in H. by apply (String.app_inj "checkpoint_epoch_"). }
  apply string_app_inj_r in H'. by apply (inj pretty).
Qed.

(** *** The loader, the wrapper and the final save *)

Section MoreProperties.
Context `{torch : Torch} `{trainers : !Trainers}.

(** Each step of the loader keeps the disk and only adds events. *)
Lemma extends_refl (w : world) : extends w w.
Proof. split; [done|]. exists []. by rewrite app_nil_r. Qed.

Lemma extends_trans (w1 w2 w3 : world) :
  extends w1 w2 → extends w2 w3 → extends w1 w3.
Proof.
  intros [Hd1 [l1 H1]] [Hd2 [l2 H2]]. split; [congruence|].
  exists (l1 ++ l2). by rewrite H2, H1, app_assoc.
Qed.

Lemma extends_emit (w : world) m o l :
  extends w (World (disk w) m o (events w ++ l)).
Proof. split; [done|]. by exists l. Qed.

Lemma extends_state (w : world) m o :
  extends w (World (disk w) m o (events w)).
Proof. split; [done|]. exists []. by rewrite app_nil_r. Qed.

Lemma load_checkpoint_body_extends p s0 (w : world) :
  extends w (load_checkpoint_body p s0 w).2.
Proof.
  destruct (disk w !! p) as [[b|e]|] eqn:Hb;
    [| unfold load_checkpoint_body, bind, torch_load; rewrite Hb; apply extends_refl ..].
  rewrite (run_load_checkpoint_body _ _ _ _ Hb).
  rewrite run_bind, run_restore_model_state.
  set (r1 := match b !! "model_state_dict" with Some _ => _ | None => _ end).
  assert (extends w r1.2) as H1.
  { unfold r1. destruct (b !! "model_state_dict") as [sd|];
      [destruct (model_load_state_dict _ _) as [[[]|?] ?]|]; simpl;
      try apply extends_emit; apply extends_state. }
  destruct r1 as [[[]|e1] w1]; [|done]. simpl in H1.
  rewrite run_bind, run_restore_optimizer_state.
  set (r2 := match b !! "optimizer_state_dict" with Some _ => _ | None => _ end).
  assert (extends w1 r2.2) as H2.
  { unfold r2. destruct (b !! "optimizer_state_dict") as [sd|];
      [destruct (optimizer_load_state_dict _ _) as [[[]|?] ?]|]; simpl;
      try apply extends_emit; apply extends_state. }
  destruct r2 as [[[]|e2] w2]; [|by eapply extends_trans]. simpl in H2.
  rewrite run_bind, run_starting_epoch.
  set (r3 := match b !! "epoch" with Some _ => _ | None => _ end).
  assert (extends w2 r3.2) as H3.
  { unfold r3. destruct (b !! "epoch") as [ep|];
      [destruct (py_add_one ep)|]; simpl;
      try apply extends_emit. apply extends_refl. }
  destruct r3 as [[v|e3] w3]; [|eauto using extends_trans]. simpl in H3.
  rewrite run_bind, run_log_checkpoint_loss.
  set (r4 := match b !! "loss" with Some _ => _ | None => _ end).
  assert (extends w3 r4.2) as H4.
  { unfold r4. destruct (b !! "loss") as [loss|];
      [destruct (py_format_6f loss)|]; simpl;
      try apply extends_emit; apply extends_refl. }
  destruct r4 as [[[]|e4] w4]; simpl in *; eauto using extends_trans.
Qed.


(** X1. Whatever the path, the disk and the bundle are, and whatever
    errors (deriving from [Exception]) the load of the file and of the
    states, the increment and the formatting raise, the loader returns:
    the disk is as before, the events of before are still there, followed
    by what it has logged, and the result is 0 or the epoch entry of the
    bundle plus one. *)
Theorem load_checkpoint_frame (checkpoint_path : option string) (w : world) :
  ∃ v w',
    load_checkpoint_for_resumption checkpoint_path w = (Returned v, w') ∧
    disk w' = disk w ∧
    (∃ l, events w' = events w ++ l) ∧
    (v = PyInt 0 ∨
     ∃ p b epoch,
       checkpoint_path = Some p ∧ disk w !! p = Some (Bundle b) ∧
       b !! "epoch" = Some epoch ∧ py_add_one epoch = Returned v).
Proof.
  destruct checkpoint_path as [p|].
  2: { rewrite run_loader_none. exists (PyInt 0), w.
       destruct (extends_refl w). eauto 10. }
  destruct (decide (p = "")) as [->|Hne].
  { rewrite run_loader_empty_path. exists (PyInt 0), w.
    destruct (extends_refl w). eauto 10. }
  destruct (disk w !! p) as [f|] eqn:Hp.
  2: { rewrite (run_loader_absent _ _ Hne Hp). eexists _, _.
       split; [done|]. simpl. eauto 10. }
  rewrite (run_loader_found _ _ _ Hne Hp).
  set (w0 := World (disk w) (model w) (optimizer w)
               (events w ++ [Logged INFO (MsgResumingFromCheckpoint p)])).
  pose proof (load_checkpoint_body_extends p (PyInt 0) w0) as Hext.
  destruct (load_checkpoint_body p (PyInt 0) w0) as [[v|e] w'] eqn:Hbody.
  - exists v, w'.
    destruct (extends_trans w w0 w' (extends_emit _ _ _ _) Hext) as [? ?].
    repeat split; try done.
    apply load_checkpoint_body_returned in Hbody as (b & w1 & w2 & Hb & Hs).
    simpl in Hb. rewrite Hp in Hb. injection Hb as ->.
    rewrite run_starting_epoch in Hs.
    destruct (b !! "epoch") as [epoch|] eqn:He; [|injection Hs as <- _; eauto].
    destruct (py_add_one epoch) eqn:Hadd; [|done].
    injection Hs as <- _. right. by exists p, b, epoch.
  - eexists _, _. split; [done|].
    destruct (extends_trans w w0 _ (extends_emit _ _ _ _)
                (extends_trans _ _ _ Hext
                   (extends_emit w' (model w') (optimizer w')
                      [Logged ERROR (MsgErrorLoadingCheckpoint e);
                       Logged WARNING MsgStartingFromScratch]))) as [? ?].
    eauto 10.
Qed.


(** X3. If the optimizer rejects its state after the model has loaded
    its own, the loader returns start-epoch 0 and the model keeps the
    weights of the checkpoint: the run starts from epoch 0 with the
    restored model. *)
Theorem load_optimizer_failure_keeps_model
    (p : string) (b : gmap string pyval) (sd osd : pyval)
    (m' : Model) (o' : Optimizer) (e : exn) (w : world) :
  p ≠ "" →
  disk w !! p = Some (Bundle b) →
  b !! "model_state_dict" = Some sd →
  model_load_state_dict (model w) sd = (Returned (), m') →
  b !! "optimizer_state_dict" = Some osd →
  optimizer_load_state_dict (optimizer w) osd = (Raised e, o') →
  load_checkpoint_for_resumption (Some p) w =
    (Returned (PyInt 0),
     World (disk w) m' o'
       (events w ++ [Logged INFO (MsgResumingFromCheckpoint p);
                     Logged INFO MsgModelStateLoaded;
                     Logged ERROR (MsgErrorLoadingCheckpoint e);
                     Logged WARNING MsgStartingFromScratch])).
Proof.
  intros Hne Hp Hsd Hm Hosd Ho.
  rewrite (run_loader_found _ _ _ Hne Hp).
  rewrite (run_load_checkpoint_body _ _ _ b) by done.
  rewrite run_bind, run_restore_model_state, Hsd. simpl. rewrite Hm.
  rewrite run_bind, run_restore_optimizer_state, Hosd. simpl. rewrite Ho.
  simpl. by rewrite <- !app_assoc.
Qed.

(** What the closure hands to the function it replaced, whatever the
    epoch and the output directory are. *)
Lemma adjusted_save_checkpoint_next start orig out path epoch kwargs (w : world) :
  ∃ w' l,
    call_save_checkpoint (adjusted_save_checkpoint start orig) out
      path epoch kwargs w = (Returned (), w') ∧
    events w' = events w ++
      SaveInvoked (adjusted_save_checkpoint start orig) path epoch kwargs ::
      SaveInvoked orig
        (if bool_decide (epoch ≠ None) && str_truthy out
         then os_path_join (default "" out)
                ("checkpoint_epoch_" +:+
                 str_opt_int ((λ epoch, epoch + start) <$> epoch) +:+ ".pt")
         else path)
        ((λ epoch, epoch + start) <$> epoch) kwargs :: l.
Proof.
  simpl. rewrite run_bind. simpl.
  edestruct (call_save_checkpoint_events orig) as (w' & l & -> & Hev).
  eexists _, _. split; [reflexivity|]. rewrite Hev. simpl.
  by rewrite <- app_assoc.
Qed.

Lemma run_script_passes (self : trainer) start orig s (w : world) :
  save_checkpoint self = adjusted_save_checkpoint start orig →
  ∃ tail, events (run_script self s w).2 = events w ++ tail ∧
    ∀ k path epoch kwargs,
      save_requests self s !! k = Some (path, epoch, kwargs) →
      epoch = None ∨ str_truthy (output_dir self) = false →
      ∃ j, tail !! j = Some (SaveInvoked (adjusted_save_checkpoint start orig)
                               path epoch kwargs) ∧
           tail !! (j + 1)%nat =
             Some (SaveInvoked orig path ((λ i, i + start) <$> epoch) kwargs).
Proof.
  intros Hsave. revert w.
  induction s as [r | e | s IH | s IH | s IH | path epoch kwargs s IH];
    intros w; simpl.
  - exists []. split; [by rewrite app_nil_r|]. intros k ???. by rewrite lookup_nil.
  - exists []. split; [by rewrite app_nil_r|]. intros k ???. by rewrite lookup_nil.
  - rewrite run_bind. simpl.
    destruct (train_one_epoch (model w) (optimizer w)) as [m opt].
    edestruct IH as (tail & -> & Htail). simpl. eauto.
  - apply IH.
  - apply IH.
  - rewrite run_bind, Hsave.
    edestruct (adjusted_save_checkpoint_next start orig (output_dir self)
                 path epoch kwargs w) as (w' & l & -> & Hw').
    edestruct (IH w') as (tail & -> & Htail). rewrite Hw'.
    eexists. split; [rewrite <- app_assoc; reflexivity|].
    intros [|k] path' epoch' kwargs' Hk Hcase; simpl in Hk.
    + injection Hk as <- <- <-. exists 0%nat. split; [done|]. simpl.
      destruct Hcase as [-> | ->]; [done|]. by rewrite andb_false_r.
    + destruct (Htail _ _ _ _ Hk Hcase) as (j & Hj & Hj').
      exists (2 + (length l + j))%nat. simpl.
      rewrite !lookup_app_r by lia.
      replace (length l + j - length l)%nat with j by lia.
      replace (length l + j + 1 - length l)%nat with (j + 1)%nat by lia.
      done.
Qed.

(** X4. During a wrapped run, a save request without an epoch, or of a
    trainer without an output directory, reaches the original save function
    with the path the trainer gave; the epoch, if there is one, is still
    offset by the start epoch. *)
Theorem train_passes_other_saves
    (self : ResumeTrainer) (tr : trainer) (w : world) :
  0 < num_epochs tr - current_epoch self →
  ∃ tail,
    events (train self (tr, w)).2.2 =
      events w ++
      TrainInvoked (num_epochs tr - current_epoch self)
        (adjusted_save_checkpoint (current_epoch self) (save_checkpoint tr)) :: tail ∧
    ∀ k path epoch kwargs,
      save_requests (patched_trainer self tr) (train_method tr) !! k =
        Some (path, epoch, kwargs) →
      epoch = None ∨ str_truthy (output_dir tr) = false →
      ∃ j,
        tail !! j =
          Some (SaveInvoked
                  (adjusted_save_checkpoint (current_epoch self) (save_checkpoint tr))
                  path epoch kwargs) ∧
        tail !! (j + 1)%nat =
          Some (SaveInvoked (save_checkpoint tr) path
                  ((λ i, i + current_epoch self) <$> epoch) kwargs).
Proof.
  intros Hpos. rewrite run_train.
  destruct (Z.leb_spec (num_epochs tr - current_epoch self) 0); [lia|].
  set (w0 := World (disk w) (model w) (optimizer w)
               (events w ++ [TrainInvoked (num_epochs tr - current_epoch self)
                  (adjusted_save_checkpoint (current_epoch self) (save_checkpoint tr))])).
  destruct (run_script_passes (patched_trainer self tr) (current_epoch self)
              (save_checkpoint tr) (train_method tr) w0 eq_refl)
    as (tail & Hev & Htail).
  exists tail. split; [|exact Htail].
  assert ((trainer_train (patched_trainer self tr) w).2 =
          (run_script (patched_trainer self tr) (train_method tr) w0).2) as Hrun
    by reflexivity.
  destruct (trainer_train (patched_trainer self tr) w) as [[r|e] w']; simpl in *;
    rewrite Hrun, Hev; unfold w0; simpl; by rewrite <- app_assoc.
Qed.

(** X5. A closure put around a closure adds both offsets: the inner
    one is handed the path and the epoch that the outer one has already
    adjusted, and adjusts them again. *)
Theorem nested_closures_add_offsets
    (s1 s2 : Z) (orig : save_fn) (d path : string) (i : Z)
    (kwargs : gmap string pyval) (w : world) :
  d ≠ "" →
  ∃ w' l,
    call_save_checkpoint
      (adjusted_save_checkpoint s1 (adjusted_save_checkpoint s2 orig))
      (Some d) path (Some i) kwargs w = (Returned (), w') ∧
    events w' = events w ++
      SaveInvoked (adjusted_save_checkpoint s1 (adjusted_save_checkpoint s2 orig))
        path (Some i) kwargs ::
      SaveInvoked (adjusted_save_checkpoint s2 orig)
        (os_path_join d ("checkpoint_epoch_" +:+ str_int (i + s1) +:+ ".pt"))
        (Some (i + s1)) kwargs ::
      SaveInvoked orig
        (os_path_join d ("checkpoint_epoch_" +:+ str_int (i + s1 + s2) +:+ ".pt"))
        (Some (i + s1 + s2)) kwargs :: l.
Proof.
  intros Hd.
  assert ((d =? "")%string = false) as Heq by by apply String.eqb_neq.
  simpl. rewrite !run_bind. simpl. rewrite Heq. simpl. rewrite run_bind. simpl.
  edestruct (call_save_checkpoint_events orig) as (w' & l & -> & Hev').
  eexists _, _. split; [reflexivity|].
  rewrite Hev'. simpl. by rewrite <- !app_assoc.
Qed.

(** X6. After a run that raised, the trainer keeps the reduced epoch
    count and the closure, so a second call of [train] on the same wrapper
    subtracts the start epoch again: it trains nothing if no epochs are
    left after two subtractions, and otherwise enters the trainer with the
    closure around the closure. *)
Theorem train_again_after_failure
    (self : ResumeTrainer) (tr : trainer) (w w1 : world) (e : exn) :
  0 < num_epochs tr - current_epoch self →
  trainer_train (patched_trainer self tr) w = (Raised e, w1) →
  train self (tr, w) = (Raised e, (patched_trainer self tr, w1)) ∧
  if num_epochs tr - current_epoch self - current_epoch self <=? 0 then
    train self (patched_trainer self tr, w1) =
      (Returned no_training_result,
       (patched_trainer self tr,
        World (disk w1) (model w1) (optimizer w1)
          (events w1 ++ [Logged WARNING (MsgNoEpochsRemaining (current_epoch self))])))
  else
    ∃ tail,
      events (train self (patched_trainer self tr, w1)).2.2 =
        events w1 ++
        TrainInvoked (num_epochs tr - current_epoch self - current_epoch self)
          (adjusted_save_checkpoint (current_epoch self)
             (adjusted_save_checkpoint (current_epoch self) (save_checkpoint tr)))
        :: tail.
Proof.
  intros Hpos He. split.
  { rewrite run_train.
    destruct (Z.leb_spec (num_epochs tr - current_epoch self) 0); [lia|].
    by rewrite He. }
  rewrite run_train. simpl.
  destruct (num_epochs tr - current_epoch self - current_epoch self <=? 0); [done|].
  set (p2 := patched_trainer self (patched_trainer self tr)).
  destruct (run_script_passes p2 (current_epoch self)
              (adjusted_save_checkpoint (current_epoch self) (save_checkpoint tr))
              (train_method tr)
              (World (disk w1) (model w1) (optimizer w1)
                 (events w1 ++ [TrainInvoked
                    (num_epochs tr - current_epoch self - current_epoch self)
                    (save_checkpoint p2)])) eq_refl) as (tail & Hev & _).
  exists tail.
  assert ((trainer_train p2 w1).2 =
          (run_script p2 (train_method tr)
             (World (disk w1) (model w1) (optimizer w1)
                (events w1 ++ [TrainInvoked
                   (num_epochs tr - current_epoch self - current_epoch self)
                   (save_checkpoint p2)]))).2) as Hrun by reflexivity.
  destruct (trainer_train p2 w1) as [[r|e'] w']; simpl in *;
    rewrite Hrun, Hev; simpl; by rewrite <- app_assoc.
Qed.


End MoreProperties.

(** *** The configuration *)

Lemma lookup_setattr_ne name k v (obj : gmap string pyval) :
  name ≠ k → setattr k v obj !! name = obj !! name.
Proof. intros. unfold setattr. by rewrite lookup_insert_ne. Qed.

Lemma lookup_setattr_eq k v (obj : gmap string pyval) :
  setattr k v obj !! k = Some v.
Proof. unfold setattr. by rewrite lookup_insert_eq. Qed.

Lemma lookup_setattr_if_given_ne {A} name k (to_py : A → pyval) (v : option A)
    (obj : gmap string pyval) :
  (is_Some v → name ≠ k) →
  setattr_if_given k to_py v obj !! name = obj !! name.
Proof.
  destruct v as [x|]; simpl; [|done].
  intros H. apply lookup_setattr_ne, H. by eexists.
Qed.

Lemma lookup_setattr_if_given_unlisted {A} name k (to_py : A → pyval)
    (v : option A) (obj : gmap string pyval) :
  name ∉ (if v is Some _ then [k] else []) →
  setattr_if_given k to_py v obj !! name = obj !! name.
Proof.
  intros H. apply lookup_setattr_if_given_ne. intros [x ->] ->.
  apply H, list_elem_of_here.
Qed.

Lemma lookup_setattr_when_unlisted name k v (b : bool) (obj : gmap string pyval) :
  name ∉ (if b then [k] else []) →
  (if b then setattr k v obj else obj) !! name = obj !! name.
Proof.
  destruct b; [|done]. intros H. apply lookup_setattr_ne. intros ->.
  apply H, list_elem_of_here.
Qed.

(** X12. An attribute that is not among the assigned ones keeps the
    value of the preset, or stays absent. *)
Theorem unassigned_attributes_keep_preset
    (args : ConfigArgs) (config : gmap string pyval) (name : string) :
  name ∉ assigned_attributes args →
  symbolic_overrides args config !! name = config !! name.
Proof.
  unfold assigned_attributes. rewrite !not_elem_of_app, !not_elem_of_cons.
  intros H. destruct_and!. unfold symbolic_overrides. cbv zeta.
  rewrite lookup_setattr_when_unlisted by assumption.
  repeat first
    [ rewrite lookup_setattr_ne by assumption
    | rewrite (lookup_setattr_if_given_ne _ "bias")
        by (intros _; assumption)
    | rewrite lookup_setattr_if_given_unlisted by assumption ].
  destruct (arg_use_reconstruction args), (arg_use_standard_norm args);
    by rewrite !lookup_setattr_ne by assumption.
Qed.

Ltac through_later_assignments :=
  repeat first
    [ rewrite lookup_setattr_ne by done
    | rewrite lookup_setattr_if_given_ne by done ].

(** X13. The model type of the configuration is the one of the variant
    that [main] announces; the variant that [main] names once the model is
    initialized is the same one unless both [--use_reconstruction] and
    [--use_standard_norm] are given. *)
Theorem model_type_follows_announcement
    (args : ConfigArgs) (config : gmap string pyval) :
  symbolic_overrides args config !! "model_type" =
    Some (PyStr (variant_model_type (announced_variant args))) ∧
  (initialized_variant args = announced_variant args ↔
   ¬ (arg_use_reconstruction args = true ∧ arg_use_standard_norm args = true)).
Proof.
  unfold symbolic_overrides, announced_variant, initialized_variant. cbv zeta.
  destruct (arg_use_reconstruction args), (arg_use_standard_norm args);
    through_later_assignments; rewrite lookup_setattr_eq; simpl;
    (split; [done|]);
    (split; [by intros ? [? ?] | intros H; try done; by destruct H]).
Qed.

(** X14. The flags and the training parameters replace the values of
    the preset whether they were given on the command line or not: [bias],
    [num_epochs], [use_symbolic_ffn] and the block type. *)
Theorem flags_always_overwrite_preset
    (args : ConfigArgs) (config : gmap string pyval) :
  let config' := symbolic_overrides args config in
  config' !! "bias" = Some (PyBool (arg_bias args)) ∧
  config' !! "num_epochs" = Some (PyInt (arg_num_epochs args)) ∧
  config' !! "use_symbolic_ffn" = Some (PyBool (arg_use_symbolic_ffn args)) ∧
  config' !! "transformer_block_type" = Some (PyStr "Symbolic").
Proof.
  unfold symbolic_overrides. cbv zeta.
  destruct (arg_use_reconstruction args), (arg_use_standard_norm args);
    repeat split; through_later_assignments; simpl;
    by rewrite lookup_setattr_eq.
Qed.

(** *** Gradient accumulation, the text column and the tee *)

(** X15. For a positive mini-batch size there is at least one
    accumulation step; the effective batch size is the largest multiple of
    the mini-batch size that is not above the requested size, and it is the
    mini-batch size itself if the request is below that. *)
Theorem accumulation_steps_bounds (requested mini_batch_size : Z) :
  0 < mini_batch_size →
  let steps := accumulation_steps_for requested mini_batch_size in
  let effective := steps * mini_batch_size in
  1 ≤ steps ∧
  (mini_batch_size ≤ requested →
     effective ≤ requested < effective + mini_batch_size) ∧
  (requested < mini_batch_size → effective = mini_batch_size).
Proof.
  intros Hm steps effective. unfold effective, steps, accumulation_steps_for.
  split; [lia|]. split.
  - intros Hle.
    assert (1 ≤ requested `div` mini_batch_size)
      by (apply Z.div_le_lower_bound; lia).
    rewrite Z.max_r by lia.
    pose proof (Z.mul_div_le requested mini_batch_size Hm).
    pose proof (Z.mul_succ_div_gt requested mini_batch_size Hm). lia.
  - intros Hlt.
    assert (requested `div` mini_batch_size ≤ 0).
    { destruct (Z.le_gt_cases 0 requested).
      - rewrite Z.div_small; lia.
      - pose proof (Z.div_lt_upper_bound requested mini_batch_size 0 Hm). lia. }
    rewrite Z.max_l by lia. lia.
Qed.

(** X16. For a positive mini-batch size and a positive request, the
    summary has its "Adjusted from requested" line exactly if the request
    is not a multiple of the mini-batch size. *)
Theorem adjusted_line_iff_not_divisible (mini_batch_size requested steps : Z) :
  0 < mini_batch_size → 0 < requested →
  gradient_accumulation_summary mini_batch_size (Some requested) steps =
    Lines (["Mini-batch size:           " +:+ str_int mini_batch_size;
            "Gradient accumulation:     " +:+
              str_int (Z.max 1 (requested `div` mini_batch_size)) +:+ " steps";
            "Effective batch size:      " +:+
              str_int (Z.max 1 (requested `div` mini_batch_size) * mini_batch_size)] ++
           if bool_decide (requested `mod` mini_batch_size = 0)
           then []
           else ["  (Adjusted from requested " +:+ str_int requested +:+ ")"]).
Proof.
  intros Hm Hr. unfold gradient_accumulation_summary, accumulation_steps_for. simpl.
  destruct (Z.eqb_spec requested 0); [lia|]. simpl.
  destruct (Z.eqb_spec mini_batch_size 0); [lia|].
  do 2 f_equal.
  pose proof (Z.div_mod requested mini_batch_size ltac:(lia)) as Hdm.
  pose proof (Z.mod_pos_bound requested mini_batch_size Hm) as Hb.
  pose proof (Z.div_pos requested mini_batch_size ltac:(lia) Hm) as Hq.
  set (q := requested `div` mini_batch_size) in *.
  set (x := requested `mod` mini_batch_size) in *.
  destruct (decide (x = 0)) as [Hz|Hnz].
  - rewrite bool_decide_eq_false_2, (bool_decide_eq_true_2 _ Hz); [done|].
    intros Hne. apply Hne.
    assert (1 ≤ q) by nia. rewrite Z.max_r by lia. lia.
  - rewrite bool_decide_eq_true_2, (bool_decide_eq_false_2 _ Hnz); [done|].
    destruct (Z.max_spec 1 q) as [[? ->]|[? ->]]; [lia|].
    assert (q = 0 ∨ q = 1) as [Hq0|Hq0] by lia; rewrite Hq0 in Hdm; lia.
Qed.

(** X17. The column chosen is a column of the dataset with a name that
    is not empty: [text] if there is one, else [story] if there is one,
    else a column of string type. *)
Theorem chosen_column_is_listed (column_names : list string) (dtype : string → string)
    (name : string) :
  choose_text_column column_names dtype = Column name →
  name ∈ column_names ∧ name ≠ "" ∧
  (name = "text" ∨
   ("text" ∉ column_names) ∧
   (name = "story" ∨ ("story" ∉ column_names) ∧ dtype name = "string")).
Proof.
  unfold choose_text_column.
  destruct (decide ("text" ∈ column_names)) as [Ht|Ht].
  { rewrite (bool_decide_eq_true_2 _ Ht). intros [= <-]. eauto. }
  rewrite (bool_decide_eq_false_2 _ Ht).
  destruct (decide ("story" ∈ column_names)) as [Hs|Hs].
  { rewrite (bool_decide_eq_true_2 _ Hs). intros [= <-]. eauto 10. }
  rewrite (bool_decide_eq_false_2 _ Hs).
  destruct (find _ column_names) as [col|] eqn:Hfind; simpl; [|done].
  destruct (String.eqb_spec col ""); simpl; [done|]. intros [= <-].
  apply find_some in Hfind as [Hin Hd].
  apply String.eqb_eq in Hd. apply list_elem_of_In in Hin. eauto 10.
Qed.

(** X18. For column names that are not empty, the search ends with
    exit code 1 exactly if there is no column [text], no column [story]
    and no column of string type. *)
Theorem exit_iff_no_text_column (column_names : list string) (dtype : string → string) :
  "" ∉ column_names →
  (choose_text_column column_names dtype = Exit 1 ↔
  ("text" ∉ column_names) ∧ ("story" ∉ column_names) ∧
  ∀ col, col ∈ column_names → dtype col ≠ "string").
Proof.
  intros Hempty. unfold choose_text_column.
  destruct (decide ("text" ∈ column_names)) as [Ht|Ht].
  { rewrite (bool_decide_eq_true_2 _ Ht). split; [done|]. by intros [? _]. }
  rewrite (bool_decide_eq_false_2 _ Ht).
  destruct (decide ("story" ∈ column_names)) as [Hs|Hs].
  { rewrite (bool_decide_eq_true_2 _ Hs). split; [done|]. by intros (_ & ? & _). }
  rewrite (bool_decide_eq_false_2 _ Hs).
  destruct (find _ column_names) as [col|] eqn:Hfind; simpl.
  - apply find_some in Hfind as [Hin Hd].
    apply String.eqb_eq in Hd. apply list_elem_of_In in Hin.
    destruct (String.eqb_spec col "") as [->|]; [done|]. simpl.
    split; [done|]. intros (_ & _ & H). by destruct (H col Hin).
  - split; [|done]. intros _. repeat split; try done.
    intros col Hin%list_elem_of_In Hd.
    pose proof (find_none _ _ Hfind col Hin) as Hn. simpl in Hn.
    by rewrite Hd in Hn.
Qed.

Lemma concat_text_cons m ms : concat_text (m :: ms) = m +:+ concat_text ms.
Proof. reflexivity. Qed.

Lemma string_app_assoc (a b c : string) : (a +:+ b) +:+ c = a +:+ b +:+ c.
Proof.
  induction a as [|x a IH]; [done|].
  change (String x ((a +:+ b) +:+ c) = String x (a +:+ b +:+ c)). by rewrite IH.
Qed.

Lemma string_app_empty_r (a : string) : a +:+ "" = a.
Proof.
  induction a as [|x a IH]; [done|].
  change (String x (a +:+ "") = String x a). by rewrite IH.
Qed.

(** X19. While the file is open, the tee gives the file every message
    it gives the console, in the same order. *)
Theorem tee_mirrors_console (messages : list string) (t : tee) :
  file_closed t = false →
  write_all messages t =
    (Returned (),
     Tee (console t +:+ concat_text messages)
         (file_text t +:+ concat_text messages) false).
Proof.
  revert t. induction messages as [|m ms IH]; intros [c f cl] Hopen;
    simpl in Hopen; subst cl.
  - simpl. unfold ret. by rewrite !string_app_empty_r.
  - rewrite concat_text_cons. simpl.
    unfold bind at 1, TeeOutput_write, bind, stdout_write, modify, file_write,
      file_flush. simpl.
    rewrite IH by done. simpl. by rewrite !string_app_assoc.
Qed.

(** X20. Once the tee is closed its first write raises the error of the
    closed file, and the messages after it are not written at all; the
    console has received the message that failed, the file has not, and
    both have what was written before [close]. *)
Theorem tee_write_after_close
    (before : list string) (message : string) (after : list string) (t : tee) :
  file_closed t = false →
  (write_all before ;; TeeOutput_close ;; write_all (message :: after)) t =
    (Raised closed_file_error,
     Tee (console t +:+ concat_text before +:+ message)
         (file_text t +:+ concat_text before) true).
Proof.
  revert t. induction before as [|m ms IH]; intros [c f cl] Hopen;
    simpl in Hopen; subst cl.
  - unfold bind, write_all, ret, TeeOutput_close, TeeOutput_write, bind,
      stdout_write, modify, file_write. simpl.
    by rewrite string_app_empty_r.
  - rewrite concat_text_cons.
    specialize (IH (Tee (c +:+ m) (f +:+ m) false) eq_refl).
    cbn [console file_text] in *. rewrite !string_app_assoc in IH.
    rewrite !string_app_assoc, <- IH. reflexivity.
Qed.

(** *** The interpretability test *)

Section TestProperties.
Context `{generation : Generation}.

Lemma for_each_returns {A} (items : list A) (body : A → prog test_log unit) l :
  (∀ item l, item ∈ items → ∃ l', body item l = (Returned (), l')) →
  ∃ l', for_each items body l = (Returned (), l').
Proof.
  revert l. induction items as [|item items IH]; intros l Hbody; simpl.
  - by eexists.
  - destruct (Hbody item l) as [l1 H1]; [apply list_elem_of_here|].
    unfold bind. rewrite H1. apply IH. intros ???. apply Hbody.
    by apply list_elem_of_further.
Qed.

Lemma for_each_invariant {A} (P : test_log → Prop) (items : list A)
    (body : A → prog test_log unit) l :
  (∀ item l, item ∈ items → P l → P (body item l).2) →
  P l → P (for_each items body l).2.
Proof.
  revert l. induction items as [|item items IH]; intros l Hbody Hl; simpl; [done|].
  unfold bind.
  pose proof (Hbody item l (list_elem_of_here _ _) Hl) as H1.
  destruct (body item l) as [[[]|e] l1]; simpl in *; [|done].
  apply IH; [|done]. intros ????. apply Hbody; [|done].
  by apply list_elem_of_further.
Qed.

(** A turn of the inner loop returns, whatever the model and the
    tokenizer do. *)
Lemma test_length_returns i prompt input_ids gen_len l :
  ∃ l', test_length i prompt input_ids gen_len l = (Returned (), l').
Proof.
  unfold test_length, generation_attempt, try_except, bind, lift_outcome,
    print, interp_file_write, modify, ret.
  destruct (model_generate i input_ids gen_len) as [generated|e]; [|by eexists].
  destruct (tokenizer_decode generated) as [full_text|e]; [|by eexists].
  destruct (tokenizer_decode (drop _ generated)) as [generated_part|e]; [|by eexists].
  destruct (str_truthy _); by eexists.
Qed.

Lemma test_prompt_returns i prompt input_ids l :
  tokenizer_encode prompt = Returned input_ids →
  ∃ l', test_prompt (i, prompt) l = (Returned (), l').
Proof.
  intros Henc. unfold test_prompt.
  unfold bind at 1 2 3. unfold print at 1, interp_file_write at 1, modify,
    lift_outcome. cbv beta iota. rewrite Henc.
  unfold bind at 1 2 3. unfold print at 1, interp_file_write at 1, modify.
  cbv beta iota.
  edestruct (for_each_returns [5; 10; 20]) as [l2 ->];
    [intros ???; apply test_length_returns|].
  by eexists.
Qed.

Lemma enumerate_elem {A} (items : list A) i item :
  (i, item) ∈ enumerate items → item ∈ items.
Proof.
  unfold enumerate. intros (j & x & [= -> ->] & Hx)%elem_of_lookup_imap.
  by eapply list_elem_of_lookup_2.
Qed.

(** The test in one piece: the banner, the head of the transcript, the
    loop over the prompts, and the closing of the file, after which the
    last line is printed if the loop has not raised. *)
Lemma run_test_symbolic_interpretability vocab_size output_dir timestamp l :
  test_symbolic_interpretability vocab_size output_dir timestamp l =
  match
    for_each (enumerate test_prompts) test_prompt
      (TestLog
         (printed l ++ [nl +:+ repeat_text "=" 60] ++
            ["TESTING SYMBOLIC INTERPRETABILITY"] ++ [repeat_text "=" 60])
         ([] ++ ["Symbolic Interpretability Test Results" +:+ nl] ++
            ["Timestamp: " +:+ timestamp +:+ nl] ++
            ["Model: Symbolic Transformer" +:+ nl] ++
            ["Vocab size: " +:+ str_int vocab_size +:+ nl] ++
            ["All internal representations constrained to vocabulary manifold"
               +:+ nl] ++
            [repeat_text "=" 80 +:+ nl +:+ nl])
         true)
  with
  | (Returned _, l1) =>
      (Returned (),
       TestLog
         (printed l1 ++
            ["Symbolic interpretability test results saved to: " +:+
             os_path_join3 output_dir "logs"
               ("symbolic_interpretability_" +:+ timestamp +:+ ".log")])
         (written l1) false)
  | (Raised e, l1) => (Raised e, TestLog (printed l1) (written l1) false)
  end.
Proof.
  unfold test_symbolic_interpretability.
  unfold bind at 1 2 3, print at 1 2 3, modify. cbv beta iota.
  unfold bind at 1, with_interp_file.
  unfold bind at 1 2 3 4 5 6, interp_file_write at 1 2 3 4 5 6, modify.
  cbv beta iota. cbn [printed written transcript_open].
  rewrite <- !app_assoc.
  by destruct (for_each _ _ _) as [[[]|e] l1].
Qed.

(** X21. If the tokenizer encodes the three prompts, the test runs to
    its end whatever the model and the decoder do: generation errors are
    caught, the transcript is closed, and the last line printed is the path
    of the transcript. *)
Theorem generation_errors_do_not_abort
    (vocab_size : Z) (output_dir timestamp : string) (l : test_log) :
  (∀ prompt, prompt ∈ test_prompts → is_raised (tokenizer_encode prompt) = false) →
  ∃ l',
    test_symbolic_interpretability vocab_size output_dir timestamp l =
      (Returned (), l') ∧
    transcript_open l' = false ∧
    last (printed l') =
      Some ("Symbolic interpretability test results saved to: " +:+
            os_path_join3 output_dir "logs"
              ("symbolic_interpretability_" +:+ timestamp +:+ ".log")).
Proof.
  intros Hencode. rewrite run_test_symbolic_interpretability.
  edestruct (for_each_returns (enumerate test_prompts) test_prompt) as [l1 ->].
  { intros [i prompt] l1 Hin%enumerate_elem.
    specialize (Hencode prompt Hin).
    destruct (tokenizer_encode prompt) as [input_ids|e] eqn:Henc; [|done].
    by eapply test_prompt_returns. }
  eexists. split; [done|]. split; [done|]. apply last_snoc.
Qed.

Lemma for_each_raises {A} (items : list A) (body : A → prog test_log unit)
    item l :
  item ∈ items →
  (∀ l, is_raised (body item l).1 = true) →
  is_raised (for_each items body l).1 = true.
Proof.
  intros Hin Hraise. revert l.
  induction items as [|x items IH]; intros l; [by apply elem_of_nil in Hin|].
  simpl. unfold bind.
  destruct (body x l) as [[[]|e] l1] eqn:Hx; [|done].
  apply elem_of_cons in Hin as [<-|Hin]; [|by apply IH].
  specialize (Hraise l). by rewrite Hx in Hraise.
Qed.

Lemma elem_enumerate {A} (items : list A) item :
  item ∈ items → ∃ i, (i, item) ∈ enumerate items.
Proof.
  intros (i & Hi)%list_elem_of_lookup_1. exists i.
  unfold enumerate. apply elem_of_lookup_imap. eauto.
Qed.

(** X22. An error of the tokenizer on a prompt is not caught: the test
    raises, without the closing line, and the transcript is closed all the
    same. *)
Theorem tokenizer_error_aborts_test
    (vocab_size : Z) (output_dir timestamp prompt : string) (l : test_log) :
  prompt ∈ test_prompts →
  is_raised (tokenizer_encode prompt) = true →
  let run := test_symbolic_interpretability vocab_size output_dir timestamp l in
  is_raised run.1 = true ∧ transcript_open run.2 = false.
Proof.
  intros Hin Hraise run. unfold run.
  rewrite run_test_symbolic_interpretability.
  destruct (elem_enumerate _ _ Hin) as [i Hi].
  match goal with
  | |- context [for_each ?items ?body ?l0] =>
      pose proof (for_each_raises items body (i, prompt) l0 Hi) as Hfor
  end.
  destruct (for_each _ _ _) as [[[]|e] l1]; [|done].
  exfalso. enough (false = true) by done. apply Hfor. intros l0.
  unfold test_prompt, bind at 1 2 3, print at 1, interp_file_write at 1,
    modify, lift_outcome. cbv beta iota.
  by destruct (tokenizer_encode prompt).
Qed.

Lemma clean_ret {A} (a : A) : writes_no_analysis_note (ret a).
Proof. by intros l Hl. Qed.

Lemma clean_lift {A} (o : outcome A) : writes_no_analysis_note (lift_outcome o).
Proof. by intros l Hl. Qed.

Lemma clean_print text : writes_no_analysis_note (print text).
Proof. by intros l Hl. Qed.

Lemma clean_write text :
  not_analysis_note text → writes_no_analysis_note (interp_file_write text).
Proof.
  intros Ht l Hl. unfold interp_file_write, modify. simpl.
  apply Forall_app. split; [done|]. by apply Forall_singleton.
Qed.

Lemma clean_bind {A B} (m : prog test_log A) (k : A → prog test_log B) :
  writes_no_analysis_note m → (∀ a, writes_no_analysis_note (k a)) →
  writes_no_analysis_note (bind m k).
Proof.
  intros Hm Hk l Hl. specialize (Hm l Hl). unfold bind.
  destruct (m l) as [[a|e] l1]; [by apply Hk|done].
Qed.

Lemma clean_try_except {A} (body : prog test_log A) handler :
  writes_no_analysis_note body → (∀ e, writes_no_analysis_note (handler e)) →
  writes_no_analysis_note (try_except body handler).
Proof.
  intros Hm Hk l Hl. specialize (Hm l Hl). unfold try_except.
  destruct (body l) as [[a|e] l1]; [done|by apply Hk].
Qed.

Lemma clean_for_each {A} (items : list A) (body : A → prog test_log unit) :
  (∀ item, item ∈ items → writes_no_analysis_note (body item)) →
  writes_no_analysis_note (for_each items body).
Proof.
  intros Hbody l Hl. apply for_each_invariant; [|done].
  intros item l0 Hin. by apply Hbody.
Qed.

Lemma clean_test_prompt i prompt :
  prompt ∈ test_prompts → writes_no_analysis_note (test_prompt (i, prompt)).
Proof.
  intros Hp. unfold test_prompt.
  apply clean_bind; [apply clean_print|intros _].
  apply clean_bind; [by apply clean_write|intros _].
  apply clean_bind; [apply clean_lift|intros input_ids].
  apply clean_bind; [apply clean_print|intros _].
  apply clean_bind; [by apply clean_write|intros _].
  apply clean_bind; [|intros _; by apply clean_write].
  apply clean_for_each. intros gen_len _. unfold test_length.
  apply clean_bind; [apply clean_print|intros _].
  apply clean_bind; [by apply clean_write|intros _].
  apply clean_try_except.
  - unfold generation_attempt.
    apply clean_bind; [apply clean_lift|intros generated].
    apply clean_bind; [apply clean_lift|intros full_text].
    apply clean_bind; [apply clean_lift|intros generated_part].
    apply clean_bind; [apply clean_print|intros _].
    apply clean_bind; [by apply clean_write|intros _].
    rewrite (test_prompts_no_note _ _ Hp). apply clean_ret.
  - intros e. apply clean_bind; [apply clean_print|intros _].
    by apply clean_write.
Qed.

(** X23. Whatever the tokenizer and the model do, the test never writes
    the analysis note to the transcript: no argument of a call of
    [interp_file.write] starts with "Symbolic analysis: ", since none of
    the three prompts of the test has a note. *)
Theorem analysis_note_is_never_written
    (vocab_size : Z) (output_dir timestamp : string) (l : test_log) :
  Forall not_analysis_note
    (written (test_symbolic_interpretability vocab_size output_dir timestamp l).2).
Proof.
  rewrite run_test_symbolic_interpretability.
  match goal with
  | |- context [for_each ?items ?body ?l0] =>
      assert (Forall not_analysis_note (written (for_each items body l0).2))
        as Hloop
  end.
  { apply clean_for_each.
    - intros [i prompt] Hin%enumerate_elem. by apply clean_test_prompt.
    - cbn [written app]. repeat (apply Forall_cons; split; [reflexivity|]).
      apply Forall_nil_2. }
  by destruct (for_each _ _ _) as [[[]|e] l1].
Qed.

End TestProperties.

(** ** The further properties at work *)

Import Cases.


Lemma load_optimizer_failure_keeps_model_witness :
  load_checkpoint_for_resumption (Some "out/checkpoint_epoch_3.pt")
    (fresh_world bad_optimizer_disk) =
    (Returned (PyInt 0),
     World bad_optimizer_disk (4, 4) 0
       [Logged INFO (MsgResumingFromCheckpoint "out/checkpoint_epoch_3.pt");
        Logged INFO MsgModelStateLoaded;
        Logged ERROR (MsgErrorLoadingCheckpoint
          (Exception ValueError "loaded state dict has a different format"));
        Logged WARNING MsgStartingFromScratch]).
Proof.
  apply (load_optimizer_failure_keeps_model (torch := toy_torch)
           "out/checkpoint_epoch_3.pt"
           (<["optimizer_state_dict" := PyStr "corrupt"]> (saved_bundle 4 3))
           (toy_model_state_dict (4, 4)) (PyStr "corrupt") (4, 4) 0
           (Exception ValueError "loaded state dict has a different format")
           (fresh_world bad_optimizer_disk));
    [discriminate | reflexivity ..].
Defined.

Lemma train_passes_other_saves_witness :
  let self := ResumeTrainer_init 3 in
  ∃ tail,
    events (train self (best_model_trainer, fresh_world ∅)).2.2 =
      TrainInvoked 2 (adjusted_save_checkpoint 3 bound_save_checkpoint) :: tail ∧
    ∀ k path epoch kwargs,
      save_requests (patched_trainer self best_model_trainer)
        (train_method best_model_trainer) !! k = Some (path, epoch, kwargs) →
      epoch = None ∨ str_truthy (output_dir best_model_trainer) = false →
      ∃ j,
        tail !! j =
          Some (SaveInvoked (adjusted_save_checkpoint 3 bound_save_checkpoint)
                  path epoch kwargs) ∧
        tail !! (j + 1)%nat =
          Some (SaveInvoked bound_save_checkpoint path
                  ((λ i, i + 3) <$> epoch) kwargs).
Proof.
  intros self.
  apply (train_passes_other_saves self best_model_trainer (fresh_world ∅)).
  simpl. lia.
Defined.

Lemma nested_closures_add_offsets_witness :
  ∃ w' l,
    call_save_checkpoint
      (adjusted_save_checkpoint 3 (adjusted_save_checkpoint 3 bound_save_checkpoint))
      (Some "out") "out/checkpoint_epoch_0.pt" (Some 0) ∅ (fresh_world ∅) =
      (Returned (), w') ∧
    events w' =
      SaveInvoked
        (adjusted_save_checkpoint 3 (adjusted_save_checkpoint 3 bound_save_checkpoint))
        "out/checkpoint_epoch_0.pt" (Some 0) ∅ ::
      SaveInvoked (adjusted_save_checkpoint 3 bound_save_checkpoint)
        "out/checkpoint_epoch_3.pt" (Some 3) ∅ ::
      SaveInvoked bound_save_checkpoint
        "out/checkpoint_epoch_6.pt" (Some 6) ∅ :: l.
Proof.
  apply (nested_closures_add_offsets 3 3 bound_save_checkpoint "out"
           "out/checkpoint_epoch_0.pt" 0 ∅ (fresh_world ∅)).
  discriminate.
Defined.

Lemma train_again_after_failure_witness :
  let self := ResumeTrainer_init 3 in
  let e := Exception RuntimeError "CUDA out of memory" in
  let w1 := World ∅ (4, 1) 1
              [TrainInvoked 2 (adjusted_save_checkpoint 3 bound_save_checkpoint)] in
  train self (failing_trainer, fresh_world ∅) =
    (Raised e, (patched_trainer self failing_trainer, w1)) ∧
  train self (patched_trainer self failing_trainer, w1) =
    (Returned no_training_result,
     (patched_trainer self failing_trainer,
      World ∅ (4, 1) 1
        [TrainInvoked 2 (adjusted_save_checkpoint 3 bound_save_checkpoint);
         Logged WARNING (MsgNoEpochsRemaining 3)])).
Proof.
  intros self e w1.
  apply (train_again_after_failure self failing_trainer (fresh_world ∅) w1 e);
    [simpl; lia | reflexivity].
Defined.

Lemma checkpoint_paths_distinct_witness :
  os_path_join "out" ("checkpoint_epoch_" +:+ str_int 3 +:+ ".pt") ≠
  os_path_join "out" ("checkpoint_epoch_" +:+ str_int 4 +:+ ".pt").
Proof. apply (checkpoint_paths_distinct "out" 3 4). lia. Defined.


Lemma note_survives_longer_generation_witness :
  is_Some (analyze_symbolic_consistency "1 plus 1" "is 2") ∧
  is_Some (analyze_symbolic_consistency "1 plus 1" ("It " +:+ "is 2" +:+ "!")).
Proof.
  assert (is_Some (analyze_symbolic_consistency "1 plus 1" "is 2")) as H
    by (by eexists).
  split; [exact H|].
  exact (note_survives_longer_generation "1 plus 1" "It " "is 2" "!" H).
Defined.

Lemma unassigned_attributes_keep_preset_witness :
  symbolic_overrides small_args small_preset !! "vocab_size" =
    small_preset !! "vocab_size".
Proof.
  apply (unassigned_attributes_keep_preset small_args small_preset "vocab_size").
  apply (bool_decide_unpack _). vm_compute. exact I.
Defined.

Lemma accumulation_steps_bounds_witness :
  1 ≤ accumulation_steps_for 100 32 ∧
  (32 ≤ 100 →
     accumulation_steps_for 100 32 * 32 ≤ 100 <
       accumulation_steps_for 100 32 * 32 + 32) ∧
  (100 < 32 → accumulation_steps_for 100 32 * 32 = 32).
Proof. apply (accumulation_steps_bounds 100 32). lia. Defined.

Lemma adjusted_line_iff_not_divisible_witness :
  gradient_accumulation_summary 32 (Some 100) 1 =
    Lines ["Mini-batch size:           32";
           "Gradient accumulation:     3 steps";
           "Effective batch size:      96";
           "  (Adjusted from requested 100)"].
Proof. apply (adjusted_line_iff_not_divisible 32 100 1); lia. Defined.

Lemma chosen_column_is_listed_witness :
  "story" ∈ story_columns ∧ "story" ≠ "" ∧
  ("story" = "text" ∨
   ("text" ∉ story_columns) ∧
   ("story" = "story" ∨
    ("story" ∉ story_columns) ∧ all_strings "story" = "string")).
Proof.
  apply (chosen_column_is_listed story_columns all_strings "story").
  reflexivity.
Defined.

Lemma exit_iff_no_text_column_witness :
  choose_text_column number_columns all_numbers = Exit 1 ↔
  ("text" ∉ number_columns) ∧ ("story" ∉ number_columns) ∧
  ∀ col, col ∈ number_columns → all_numbers col ≠ "string".
Proof.
  apply (exit_iff_no_text_column number_columns all_numbers).
  apply (bool_decide_unpack _). vm_compute. exact I.
Defined.

Lemma tee_mirrors_console_witness :
  write_all ["Epoch 1"; " done"] (TeeOutput_init "$ ") =
    (Returned (), Tee "$ Epoch 1 done" "Epoch 1 done" false).
Proof.
  apply (tee_mirrors_console ["Epoch 1"; " done"] (TeeOutput_init "$ ")).
  reflexivity.
Defined.

Lemma generation_errors_do_not_abort_witness :
  ∃ l',
    test_symbolic_interpretability (generation := failing_model)
      50257 "out" "20240101_000000" empty_log = (Returned (), l') ∧
    transcript_open l' = false ∧
    last (printed l') =
      Some ("Symbolic interpretability test results saved to: " +:+
            os_path_join3 "out" "logs"
              ("symbolic_interpretability_" +:+ "20240101_000000" +:+ ".log")).
Proof.
  apply (generation_errors_do_not_abort (generation := failing_model)
           50257 "out" "20240101_000000" empty_log).
  intros prompt _. reflexivity.
Defined.

Lemma tokenizer_error_aborts_test_witness :
  let run :=
    test_symbolic_interpretability (generation := failing_tokenizer)
      50257 "out" "20240101_000000" empty_log in
  is_raised run.1 = true ∧ transcript_open run.2 = false.
Proof.
  apply (tokenizer_error_aborts_test (generation := failing_tokenizer)
           50257 "out" "20240101_000000" "Max went to" empty_log).
  - apply list_elem_of_here.
  - reflexivity.
Defined.

Lemma tee_write_after_close_witness :
  (write_all ["Epoch 1"] ;; TeeOutput_close ;; write_all [" done"; "!"])
    (TeeOutput_init "$ ") =
    (Raised closed_file_error, Tee "$ Epoch 1 done" "Epoch 1" true).
Proof.
  apply (tee_write_after_close ["Epoch 1"] " done" ["!"] (TeeOutput_init "$ ")).
  reflexivity.
Defined.
